(** * Order validation agent: catalog rules and the validation workflow

    A shallow embedding of [src/tools/validation_tools.py] (the catalog and
    the three validation tools) and of [src/agents/order_validator.py] (the
    nodes, the conditional edges, the graph and the [validate_order] entry
    point), followed by the properties of the specification.

    Conventions of the embedding:
    - Python [int] is [Z]; Python [float] amounts are exact rationals [Q]
      (the catalog prices, limits and balances are small decimals, on which
      the source's comparisons and sums are carried out here without
      rounding); [str] is [string], a byte string holding the UTF-8 text of
      the source's literals;
    - a [dict] read with [.get] is a record whose optional keys are [option]
      fields; the module-level catalogs are association lists in the order
      of the source;
    - a call that may raise returns a [PyResult]; [try]/[except Exception]
      is a match on it;
    - the [OrderState] threaded through the graph is passed explicitly. *)

From Stdlib Require Import ZArith QArith Qabs Bool String List DecimalString Lia Lqa.
Import ListNotations.

Open Scope string_scope.
Open Scope Z_scope.
Open Scope Q_scope.

(** ** Python primitives used by the source *)

(** [str(n)] and [f"{n}"] for an [int]. *)
Definition str_int (n : Z) : string := NilZero.string_of_int (Z.to_int n).

(** [f"{len(xs)}"]. *)
Definition str_len {A : Type} (xs : list A) : string :=
  str_int (Z.of_nat (length xs)).

(** Nearest integer, ties to the even one: the rounding of [:.2f]. *)
Definition round_half_even (x : Q) : Z :=
  let n := Qnum x in
  let d := Z.pos (Qden x) in
  let f := (n / d)%Z in
  match (2 * (n mod d) ?= d)%Z with
  | Lt => f
  | Gt => (f + 1)%Z
  | Eq => if Z.even f then f else (f + 1)%Z
  end.

Definition two_digits (n : Z) : string :=
  if (n <? 10)%Z then "0" ++ str_int n else str_int n.

(** [f"{x:.2f}"]. *)
Definition format_2f (x : Q) : string :=
  let cents := round_half_even (Qabs x * 100) in
  (if (Qnum x <? 0)%Z then "-" else "")
    ++ str_int (cents / 100) ++ "." ++ two_digits (cents mod 100).

(** [not s] for a [str]. *)
Definition str_falsy (s : string) : bool :=
  match s with EmptyString => true | _ => false end.

(** [not xs] for a [list]. *)
Definition list_falsy {A : Type} (xs : list A) : bool :=
  match xs with [] => true | _ => false end.

(** [sep.join(xs)]. *)
Fixpoint join (sep : string) (xs : list string) : string :=
  match xs with
  | [] => ""
  | [x] => x
  | x :: rest => x ++ sep ++ join sep rest
  end.

(** [f"{x}"] for a value that is a [str] or [None]. *)
Definition str_opt (x : option string) : string :=
  match x with Some s => s | None => "None" end.

(** [a > b], [a >= b] on amounts. *)
Definition Qgt_bool (a b : Q) : bool := negb (Qle_bool a b).
Definition Qge_bool (a b : Q) : bool := Qle_bool b a.

(** The outcome of a call that may raise: [Raised (str e)] or the value. *)
Inductive PyResult (A : Type) : Type :=
| Raised (e : string)
| Returned (a : A).
Arguments Raised {A} e.
Arguments Returned {A} a.

(** A [dict] with [str] keys, in insertion order. *)
Definition dict (V : Type) : Type := list (string * V).

(** [d.get(key)]. *)
Fixpoint dict_get {V : Type} (d : dict V) (key : string) : option V :=
  match d with
  | [] => None
  | (k, v) :: rest => if String.eqb k key then Some v else dict_get rest key
  end.

(** ** Catalog: [MOCK_CUSTOMERS] and [MOCK_PRODUCTS] *)

Record Customer : Type := mkCustomer {
  c_id : string;
  c_name : string;
  c_email : string;
  c_status : string;
  c_credit_limit : Q;
  c_current_balance : Q
}.

Record Product : Type := mkProduct {
  p_id : string;
  p_name : string;
  p_price : Q;
  p_stock : Z;
  p_category : string
}.

Definition MOCK_CUSTOMERS : dict Customer :=
  [ ("CUST001", mkCustomer "CUST001" "Acme Corporation" "contact@acme.com"
                  "active" 10000.0 2000.0);
    ("CUST002", mkCustomer "CUST002" "TechStart Inc" "info@techstart.com"
                  "active" 5000.0 4500.0);
    ("CUST003", mkCustomer "CUST003" "Global Solutions"
                  "sales@globalsolutions.com" "inactive" 15000.0 0.0);
    ("CUST004", mkCustomer "CUST004" "Innovation Labs"
                  "hello@innovationlabs.com" "active" 8000.0 1000.0);
    ("CUST005", mkCustomer "CUST005" "Enterprise Systems"
                  "contact@enterprise.com" "active" 20000.0 15000.0) ].

Definition MOCK_PRODUCTS : dict Product :=
  [ ("PROD001", mkProduct "PROD001" "Laptop Pro 15" 1200.0 50 "electronics");
    ("PROD002", mkProduct "PROD002" "Wireless Mouse" 25.0 200 "accessories");
    ("PROD003", mkProduct "PROD003" "USB-C Hub" 45.0 100 "accessories");
    ("PROD004", mkProduct "PROD004" "Monitor 27 inch" 350.0 30 "electronics");
    ("PROD005", mkProduct "PROD005" "Mechanical Keyboard" 120.0 0 "accessories");
    ("PROD006", mkProduct "PROD006" "Webcam HD" 80.0 75 "electronics") ].

(** ** Verdicts returned by the tools *)

Record CustomerVerdict : Type := mkCustomerVerdict {
  cv_valid : bool;
  cv_exists : bool;
  cv_active : bool;
  cv_customer_data : option Customer;
  cv_message : string
}.

Record CreditVerdict : Type := mkCreditVerdict {
  cr_has_credit : bool;
  cr_credit_limit : Q;
  cr_current_balance : Q;
  cr_available_credit : Q;
  cr_required_amount : Q;
  cr_message : string
}.

(** One item of the order: a dict read with [.get("product_id")],
    [.get("quantity", 0)] and [.get("unit_price")]. *)
Record OrderLine : Type := mkOrderLine {
  ol_product_id : option string;
  ol_quantity : option Z;
  ol_unit_price : option Q
}.

Record ValidatedItem : Type := mkValidatedItem {
  vi_product_id : option string;
  vi_product_name : string;
  vi_quantity : Z;
  vi_unit_price : Q;
  vi_item_total : Q;
  vi_category : string
}.

(** An entry of [invalid_items]; [available_stock], [provided_price] and
    [actual_price] are keys only some of the entries have. *)
Record InvalidItem : Type := mkInvalidItem {
  ii_product_id : option string;
  ii_quantity : Z;
  ii_available_stock : option Z;
  ii_provided_price : option Q;
  ii_actual_price : option Q;
  ii_reason : string
}.

Record ItemsVerdict : Type := mkItemsVerdict {
  iv_valid : bool;
  iv_total_amount : Q;
  iv_validated_items : list ValidatedItem;
  iv_invalid_items : list InvalidItem;
  iv_message : string
}.

(** ** The tools *)

Definition validate_customer_exists (customer_id : string) : CustomerVerdict :=
  if str_falsy customer_id then
    mkCustomerVerdict false false false None "ID de cliente no proporcionado"
  else
    match dict_get MOCK_CUSTOMERS customer_id with
    | None =>
        mkCustomerVerdict false false false None
          ("Cliente " ++ customer_id ++ " no existe en el sistema")
    | Some customer =>
        let is_active := String.eqb (c_status customer) "active" in
        if negb is_active then
          mkCustomerVerdict false true false (Some customer)
            ("Cliente " ++ customer_id ++ " existe pero está inactivo")
        else
          mkCustomerVerdict true true true (Some customer)
            ("Cliente " ++ customer_id ++ " válido y activo")
    end.

Definition check_customer_credit (customer_id : string) (order_amount : Q)
  : CreditVerdict :=
  match dict_get MOCK_CUSTOMERS customer_id with
  | None =>
      mkCreditVerdict false 0.0 0.0 0.0 order_amount
        ("Cliente " ++ customer_id ++ " no encontrado")
  | Some customer =>
      let credit_limit := c_credit_limit customer in
      let current_balance := c_current_balance customer in
      let available_credit := credit_limit - current_balance in
      let has_sufficient_credit := Qge_bool available_credit order_amount in
      if has_sufficient_credit then
        mkCreditVerdict true credit_limit current_balance available_credit
          order_amount
          ("Crédito suficiente. Disponible: $" ++ format_2f available_credit
             ++ ", Requerido: $" ++ format_2f order_amount)
      else
        let deficit := order_amount - available_credit in
        mkCreditVerdict false credit_limit current_balance available_credit
          order_amount
          ("Crédito insuficiente. Disponible: $" ++ format_2f available_credit
             ++ ", Requerido: $" ++ format_2f order_amount
             ++ ", Falta: $" ++ format_2f deficit)
  end.

(** The three accumulators of the loop of [validate_order_items]. *)
Record ItemsLoop : Type := mkItemsLoop {
  loop_validated : list ValidatedItem;
  loop_invalid : list InvalidItem;
  loop_total : Q
}.

Definition append_invalid (acc : ItemsLoop) (entry : InvalidItem) : ItemsLoop :=
  mkItemsLoop (loop_validated acc) (loop_invalid acc ++ [entry])
    (loop_total acc).

(** [MOCK_PRODUCTS.get(product_id)], where [product_id] may be [None]. *)
Definition get_product (pid : option string) : option Product :=
  match pid with
  | Some k => dict_get MOCK_PRODUCTS k
  | None => None
  end.

(** [quantity = item.get("quantity", 0)]. *)
Definition get_quantity (item : OrderLine) : Z :=
  match ol_quantity item with Some q => q | None => 0%Z end.

(** [abs(provided_price - actual_price) > 0.01]. *)
Definition price_differs (provided_price actual_price : Q) : bool :=
  Qgt_bool (Qabs (provided_price - actual_price)) 0.01.

(** One iteration of the [for] loop; each [continue] ends the iteration. *)
Definition validate_item (acc : ItemsLoop) (item : OrderLine) : ItemsLoop :=
  let product_id := ol_product_id item in
  let quantity := get_quantity item in
  match get_product product_id with
  | None =>
      append_invalid acc
        (mkInvalidItem product_id quantity None None None
           ("Producto " ++ str_opt product_id ++ " no existe en el catálogo"))
  | Some product =>
      if (quantity <=? 0)%Z then
        append_invalid acc
          (mkInvalidItem product_id quantity None None None
             "Cantidad debe ser mayor a 0")
      else
        let available_stock := p_stock product in
        if (quantity >? available_stock)%Z then
          append_invalid acc
            (mkInvalidItem product_id quantity (Some available_stock) None None
               ("Stock insuficiente. Solicitado: " ++ str_int quantity
                  ++ ", Disponible: " ++ str_int available_stock))
        else
          let actual_price := p_price product in
          let item_total := actual_price * inject_Z quantity in
          let accepted :=
            mkItemsLoop
              (loop_validated acc
                 ++ [mkValidatedItem product_id (p_name product) quantity
                       actual_price item_total (p_category product)])
              (loop_invalid acc)
              (loop_total acc + item_total) in
          match ol_unit_price item with
          | None => accepted
          | Some provided_price =>
              if price_differs provided_price actual_price then
                append_invalid acc
                  (mkInvalidItem product_id quantity None (Some provided_price)
                     (Some actual_price)
                     ("Precio incorrecto. Proporcionado: $"
                        ++ format_2f provided_price
                        ++ ", Actual: $" ++ format_2f actual_price))
              else accepted
          end
  end.

Definition validate_order_items (items : list OrderLine) : ItemsVerdict :=
  if list_falsy items then
    mkItemsVerdict false 0.0 [] [] "No se proporcionaron items en la orden"
  else
    let acc := fold_left validate_item items (mkItemsLoop [] [] 0.0) in
    let is_valid :=
      (length (loop_invalid acc) =? 0)%nat
        && (0 <? length (loop_validated acc))%nat in
    let message :=
      if is_valid then
        "Todos los " ++ str_len (loop_validated acc)
          ++ " items son válidos. Total: $" ++ format_2f (loop_total acc)
      else
        "Validación fallida: " ++ str_len (loop_invalid acc)
          ++ " items inválidos de " ++ str_len items ++ " totales" in
    mkItemsVerdict is_valid (loop_total acc) (loop_validated acc)
      (loop_invalid acc) message.

(** ** The state of the workflow *)

(** A verdict key of the state: [None], the dict a tool returned, or the
    two-key dict an [except] branch stores
    ([{"valid": False, "message": msg}], for the credit key
    [{"has_credit": False, "message": msg}]). *)
Inductive Slot (V : Type) : Type :=
| Unset
| Verdict (v : V)
| Failure (msg : string).
Arguments Unset {V}.
Arguments Verdict {V} v.
Arguments Failure {V} msg.

(** The ["summary"] dict of [validation_details]; [items_count] is a key of
    the approved summary, [error_count] of the rejected one. *)
Record Summary : Type := mkSummary {
  sm_order_id : string;
  sm_customer_id : string;
  sm_total_amount : Q;
  sm_items_count : option nat;
  sm_approved : bool;
  sm_error_count : option nat
}.

(** [validation_details]: [{}], the dict of [process_order_node], or the
    dict of [error_handler_node]. *)
Inductive ValidationDetails : Type :=
| EmptyDetails
| ApprovedDetails (customer : Slot CustomerVerdict) (items : Slot ItemsVerdict)
    (credit : Slot CreditVerdict) (summary : Summary)
| RejectedDetails (customer : Slot CustomerVerdict) (items : Slot ItemsVerdict)
    (credit : Slot CreditVerdict) (errors warnings : list string)
    (summary : Summary).

Record OrderState : Type := mkOrderState {
  st_order_id : string;
  st_customer_id : string;
  st_items : list OrderLine;
  st_customer_validation : Slot CustomerVerdict;
  st_items_validation : Slot ItemsVerdict;
  st_credit_validation : Slot CreditVerdict;
  st_status : string;
  st_errors : list string;
  st_warnings : list string;
  st_total_amount : Q;
  st_approved : bool;
  st_message : string;
  st_validation_details : ValidationDetails
}.

(** [state[key] = value], one setter per key the nodes assign. *)
Definition set_customer_validation (s : OrderState) (v : Slot CustomerVerdict) :=
  mkOrderState (st_order_id s) (st_customer_id s) (st_items s) v
    (st_items_validation s) (st_credit_validation s) (st_status s)
    (st_errors s) (st_warnings s) (st_total_amount s) (st_approved s)
    (st_message s) (st_validation_details s).

Definition set_items_validation (s : OrderState) (v : Slot ItemsVerdict) :=
  mkOrderState (st_order_id s) (st_customer_id s) (st_items s)
    (st_customer_validation s) v (st_credit_validation s) (st_status s)
    (st_errors s) (st_warnings s) (st_total_amount s) (st_approved s)
    (st_message s) (st_validation_details s).

Definition set_credit_validation (s : OrderState) (v : Slot CreditVerdict) :=
  mkOrderState (st_order_id s) (st_customer_id s) (st_items s)
    (st_customer_validation s) (st_items_validation s) v (st_status s)
    (st_errors s) (st_warnings s) (st_total_amount s) (st_approved s)
    (st_message s) (st_validation_details s).

Definition set_status (s : OrderState) (v : string) :=
  mkOrderState (st_order_id s) (st_customer_id s) (st_items s)
    (st_customer_validation s) (st_items_validation s)
    (st_credit_validation s) v (st_errors s) (st_warnings s)
    (st_total_amount s) (st_approved s) (st_message s)
    (st_validation_details s).

Definition set_errors (s : OrderState) (v : list string) :=
  mkOrderState (st_order_id s) (st_customer_id s) (st_items s)
    (st_customer_validation s) (st_items_validation s)
    (st_credit_validation s) (st_status s) v (st_warnings s)
    (st_total_amount s) (st_approved s) (st_message s)
    (st_validation_details s).

Definition set_warnings (s : OrderState) (v : list string) :=
  mkOrderState (st_order_id s) (st_customer_id s) (st_items s)
    (st_customer_validation s) (st_items_validation s)
    (st_credit_validation s) (st_status s) (st_errors s) v
    (st_total_amount s) (st_approved s) (st_message s)
    (st_validation_details s).

Definition set_total_amount (s : OrderState) (v : Q) :=
  mkOrderState (st_order_id s) (st_customer_id s) (st_items s)
    (st_customer_validation s) (st_items_validation s)
    (st_credit_validation s) (st_status s) (st_errors s) (st_warnings s)
    v (st_approved s) (st_message s) (st_validation_details s).

Definition set_approved (s : OrderState) (v : bool) :=
  mkOrderState (st_order_id s) (st_customer_id s) (st_items s)
    (st_customer_validation s) (st_items_validation s)
    (st_credit_validation s) (st_status s) (st_errors s) (st_warnings s)
    (st_total_amount s) v (st_message s) (st_validation_details s).

Definition set_message (s : OrderState) (v : string) :=
  mkOrderState (st_order_id s) (st_customer_id s) (st_items s)
    (st_customer_validation s) (st_items_validation s)
    (st_credit_validation s) (st_status s) (st_errors s) (st_warnings s)
    (st_total_amount s) (st_approved s) v (st_validation_details s).

Definition set_validation_details (s : OrderState) (v : ValidationDetails) :=
  mkOrderState (st_order_id s) (st_customer_id s) (st_items s)
    (st_customer_validation s) (st_items_validation s)
    (st_credit_validation s) (st_status s) (st_errors s) (st_warnings s)
    (st_total_amount s) (st_approved s) (st_message s) v.

(** [state["errors"].append(msg)]. *)
Definition append_error (s : OrderState) (msg : string) : OrderState :=
  set_errors s (st_errors s ++ [msg]).

(** The dict [validate_order] returns. *)
Record FinalResult : Type := mkFinalResult {
  fr_status : string;
  fr_approved : bool;
  fr_message : string;
  fr_total_amount : Q;
  fr_errors : list string;
  fr_warnings : list string;
  fr_validation_details : ValidationDetails
}.

(** ** The nodes of the graph *)

(** The tools as the nodes call them: [tool.invoke({...})], which returns the
    verdict or raises. *)
Record Tools : Type := mkTools {
  invoke_validate_customer_exists : string -> PyResult CustomerVerdict;
  invoke_validate_order_items : list OrderLine -> PyResult ItemsVerdict;
  invoke_check_customer_credit : string -> Q -> PyResult CreditVerdict
}.

(** The tools of [validation_tools.py], which return on every input of
    their types. *)
Definition validation_tools : Tools :=
  mkTools (fun customer_id => Returned (validate_customer_exists customer_id))
    (fun items => Returned (validate_order_items items))
    (fun customer_id order_amount =>
       Returned (check_customer_credit customer_id order_amount)).

(** [str(e)] of the [AttributeError] of [None.get(...)]. *)
Definition none_has_no_get : string :=
  "'NoneType' object has no attribute 'get'".

Inductive Node : Type :=
| N_parse_order
| N_validate_customer
| N_validate_items
| N_check_credit
| N_process_order
| N_error_handler
| N_END.

Definition parse_order (state : OrderState) : OrderState :=
  let errors : list string := [] in
  let warnings : list string := [] in
  let errors :=
    if str_falsy (st_order_id state)
    then (errors ++ ["ID de orden no proporcionado"])%list else errors in
  let errors :=
    if str_falsy (st_customer_id state)
    then (errors ++ ["ID de cliente no proporcionado"])%list else errors in
  let errors :=
    if list_falsy (st_items state)
    then (errors ++ ["No se proporcionaron items en la orden"])%list
    else (* [isinstance(state["items"], list)] holds of a [list] *)
      if (length (st_items state) =? 0)%nat
      then (errors ++ ["La lista de items está vacía"])%list else errors in
  let state := set_errors state errors in
  let state := set_warnings state warnings in
  let state :=
    set_status state (if list_falsy errors then "validating" else "error") in
  let state := set_approved state false in
  let state := set_total_amount state 0.0 in
  let state := set_validation_details state EmptyDetails in
  if list_falsy errors then
    set_message state "Orden parseada, iniciando validaciones"
  else
    set_message state
      ("Errores en estructura de orden: " ++ join "; " errors).

(** [state.get(key, {}).get("valid", False)] on a verdict key: the key is
    always in the state, so the default [{}] is never taken and [None]
    has no [get]. *)
Definition slot_flag {V : Type} (flag : V -> bool) (slot : Slot V)
  : PyResult bool :=
  match slot with
  | Unset => Raised none_has_no_get
  | Verdict v => Returned (flag v)
  | Failure _ => Returned false
  end.

Definition process_order_node (state : OrderState) : PyResult OrderState :=
  let state := set_status state "approved" in
  let state := set_approved state true in
  let state :=
    set_message state
      ("Orden " ++ st_order_id state ++ " aprobada exitosamente. Total: $"
         ++ format_2f (st_total_amount state)) in
  let items_count : PyResult nat :=
    match st_items_validation state with
    | Unset => Raised none_has_no_get
    | Verdict v => Returned (length (iv_validated_items v))
    | Failure _ => Returned 0%nat
    end in
  match items_count with
  | Raised e => Raised e
  | Returned n =>
      Returned
        (set_validation_details state
           (ApprovedDetails (st_customer_validation state)
              (st_items_validation state) (st_credit_validation state)
              (mkSummary (st_order_id state) (st_customer_id state)
                 (st_total_amount state) (Some n) true None)))
  end.

Definition error_handler_node (state : OrderState) : OrderState :=
  let state := set_status state "rejected" in
  let state := set_approved state false in
  let error_count := length (st_errors state) in
  let state :=
    set_message state
      ("Orden " ++ st_order_id state ++ " rechazada. "
         ++ str_int (Z.of_nat error_count) ++ " error(es) encontrado(s).") in
  set_validation_details state
    (RejectedDetails (st_customer_validation state)
       (st_items_validation state) (st_credit_validation state)
       (st_errors state) (st_warnings state)
       (mkSummary (st_order_id state) (st_customer_id state)
          (st_total_amount state) None false (Some error_count))).

(** The conditional edge out of [parse_order] (the [lambda]). *)
Definition after_parse_order (state : OrderState) : Node :=
  if String.eqb (st_status state) "validating"
  then N_validate_customer else N_error_handler.

Definition should_continue_after_customer (state : OrderState)
  : PyResult Node :=
  match slot_flag cv_valid (st_customer_validation state) with
  | Raised e => Raised e
  | Returned customer_valid =>
      Returned (if customer_valid then N_validate_items else N_error_handler)
  end.

Definition should_continue_after_items (state : OrderState) : PyResult Node :=
  match slot_flag iv_valid (st_items_validation state) with
  | Raised e => Raised e
  | Returned items_valid =>
      Returned (if items_valid then N_check_credit else N_error_handler)
  end.

Definition should_continue_after_credit (state : OrderState) : PyResult Node :=
  match slot_flag cr_has_credit (st_credit_validation state) with
  | Raised e => Raised e
  | Returned has_credit =>
      Returned (if has_credit then N_process_order else N_error_handler)
  end.

Section Workflow.

Variable tools : Tools.

Definition validate_customer_node (state : OrderState) : OrderState :=
  match invoke_validate_customer_exists tools (st_customer_id state) with
  | Returned result =>
      let state := set_customer_validation state (Verdict result) in
      if negb (cv_valid result)
      then append_error state (cv_message result)
      else state
  | Raised e =>
      let error_msg := "Error al validar cliente: " ++ e in
      let state := append_error state error_msg in
      set_customer_validation state (Failure error_msg)
  end.

Definition validate_items_node (state : OrderState) : OrderState :=
  match invoke_validate_order_items tools (st_items state) with
  | Returned result =>
      let state := set_items_validation state (Verdict result) in
      let state := set_total_amount state (iv_total_amount result) in
      if negb (iv_valid result) then
        let state := append_error state (iv_message result) in
        fold_left
          (fun state invalid_item =>
             append_error state
               ("Item " ++ str_opt (ii_product_id invalid_item) ++ ": "
                  ++ ii_reason invalid_item))
          (iv_invalid_items result) state
      else state
  | Raised e =>
      let error_msg := "Error al validar items: " ++ e in
      let state := append_error state error_msg in
      set_items_validation state (Failure error_msg)
  end.

Definition check_credit_node (state : OrderState) : OrderState :=
  match invoke_check_customer_credit tools (st_customer_id state)
          (st_total_amount state) with
  | Returned result =>
      let state := set_credit_validation state (Verdict result) in
      if negb (cr_has_credit result)
      then append_error state (cr_message result)
      else state
  | Raised e =>
      let error_msg := "Error al verificar crédito: " ++ e in
      let state := append_error state error_msg in
      set_credit_validation state (Failure error_msg)
  end.

(** ** The graph of [create_order_validation_graph] *)

(** [add_node]: the function registered under each name. *)
Definition node_function (n : Node) (state : OrderState)
  : PyResult OrderState :=
  match n with
  | N_parse_order => Returned (parse_order state)
  | N_validate_customer => Returned (validate_customer_node state)
  | N_validate_items => Returned (validate_items_node state)
  | N_check_credit => Returned (check_credit_node state)
  | N_process_order => process_order_node state
  | N_error_handler => Returned (error_handler_node state)
  | N_END => Returned state
  end.

(** [add_conditional_edges] and [add_edge]: the node that follows [n]. *)
Definition next_node (n : Node) (state : OrderState) : PyResult Node :=
  match n with
  | N_parse_order => Returned (after_parse_order state)
  | N_validate_customer => should_continue_after_customer state
  | N_validate_items => should_continue_after_items state
  | N_check_credit => should_continue_after_credit state
  | N_process_order => Returned N_END
  | N_error_handler => Returned N_END
  | N_END => Returned N_END
  end.

(** The step limit of a run of the compiled graph and the [str] of the
    error raised when it is hit. *)
Definition recursion_limit : nat := 25.
Definition recursion_limit_reached : string := "GraphRecursionError".

(** Runs the graph from node [n], one node per unit of [fuel]. *)
Fixpoint run (fuel : nat) (n : Node) (state : OrderState)
  : PyResult OrderState :=
  match n with
  | N_END => Returned state
  | _ =>
      match fuel with
      | O => Raised recursion_limit_reached
      | S fuel' =>
          match node_function n state with
          | Raised e => Raised e
          | Returned state' =>
              match next_node n state' with
              | Raised e => Raised e
              | Returned n' => run fuel' n' state'
              end
          end
      end
  end.

(** [app.invoke(initial_state)], entered at [parse_order]. *)
Definition app_invoke (initial_state : OrderState) : PyResult OrderState :=
  run recursion_limit N_parse_order initial_state.

End Workflow.

(** ** The entry point *)

Definition initial_state (order_id customer_id : string)
    (items : list OrderLine) : OrderState :=
  mkOrderState order_id customer_id items Unset Unset Unset "pending" [] []
    0.0 false "" EmptyDetails.

Section EntryPoint.

(** [create_order_validation_graph()] followed by [app.invoke]: the body
    of the [try]. *)
Variable invoke : OrderState -> PyResult OrderState.

Definition validate_order_on (order_id customer_id : string)
    (items : list OrderLine) : FinalResult :=
  match invoke (initial_state order_id customer_id items) with
  | Returned final_state =>
      mkFinalResult (st_status final_state) (st_approved final_state)
        (st_message final_state) (st_total_amount final_state)
        (st_errors final_state) (st_warnings final_state)
        (st_validation_details final_state)
  | Raised e =>
      let error_msg :=
        "Error crítico en validación de orden " ++ order_id ++ ": " ++ e in
      mkFinalResult "error" false error_msg 0.0 [error_msg] [] EmptyDetails
  end.

End EntryPoint.

(** [validate_order] over given tools, and over those of the repository. *)
Definition validate_order_with (tools : Tools) :=
  validate_order_on (app_invoke tools).

Definition validate_order : string -> string -> list OrderLine -> FinalResult :=
  validate_order_with validation_tools.

(** The nodes a run visits, in order ([N_END] left out): [run] with the
    states dropped. *)
Fixpoint run_trace (tools : Tools) (fuel : nat) (n : Node)
    (state : OrderState) : list Node :=
  match n with
  | N_END => []
  | _ =>
      match fuel with
      | O => []
      | S fuel' =>
          match node_function tools n state with
          | Raised _ => [n]
          | Returned state' =>
              match next_node n state' with
              | Raised _ => [n]
              | Returned n' => n :: run_trace tools fuel' n' state'
              end
          end
      end
  end.

(** ** The item rules as the specification words them

    The four rules of one order line in their fixed order; a line is
    classified by the first rule that fails. *)

Inductive Rule : Type :=
| R_product_exists
| R_quantity_positive
| R_stock_available
| R_price_matches.

Definition rules_in_order : list Rule :=
  [R_product_exists; R_quantity_positive; R_stock_available; R_price_matches].

(** Catalog stock and price of the product of a line (0 when the product is
    not in the catalog), and the price the caller asserted (0 when none). *)
Definition catalog_stock (item : OrderLine) : Z :=
  match get_product (ol_product_id item) with
  | Some product => p_stock product
  | None => 0%Z
  end.

Definition catalog_price (item : OrderLine) : Q :=
  match get_product (ol_product_id item) with
  | Some product => p_price product
  | None => 0
  end.

Definition asserted_price (item : OrderLine) : Q :=
  match ol_unit_price item with Some p => p | None => 0 end.

Definition rule_holds (r : Rule) (item : OrderLine) : bool :=
  match r with
  | R_product_exists =>
      match get_product (ol_product_id item) with
      | Some _ => true
      | None => false
      end
  | R_quantity_positive => (0 <? get_quantity item)%Z
  | R_stock_available => (get_quantity item <=? catalog_stock item)%Z
  | R_price_matches =>
      match ol_unit_price item with
      | None => true
      | Some p => Qle_bool (Qabs (p - catalog_price item)) 0.01
      end
  end.

Definition first_failing_rule (item : OrderLine) : option Rule :=
  find (fun r => negb (rule_holds r item)) rules_in_order.

Definition line_passes (item : OrderLine) : bool :=
  forallb (fun r => rule_holds r item) rules_in_order.

(** Catalog unit price times requested quantity. *)
Definition line_total (item : OrderLine) : Q :=
  catalog_price item * inject_Z (get_quantity item).

(** The record of a line that fails rule [r]. *)
Definition rejection (r : Rule) (item : OrderLine) : InvalidItem :=
  let pid := ol_product_id item in
  let qty := get_quantity item in
  match r with
  | R_product_exists =>
      mkInvalidItem pid qty None None None
        ("Producto " ++ str_opt pid ++ " no existe en el catálogo")
  | R_quantity_positive =>
      mkInvalidItem pid qty None None None "Cantidad debe ser mayor a 0"
  | R_stock_available =>
      mkInvalidItem pid qty (Some (catalog_stock item)) None None
        ("Stock insuficiente. Solicitado: " ++ str_int qty
           ++ ", Disponible: " ++ str_int (catalog_stock item))
  | R_price_matches =>
      mkInvalidItem pid qty None (ol_unit_price item)
        (Some (catalog_price item))
        ("Precio incorrecto. Proporcionado: $"
           ++ format_2f (asserted_price item)
           ++ ", Actual: $" ++ format_2f (catalog_price item))
  end.

(** The record of a line that passes every rule. *)
Definition acceptance (item : OrderLine) (product : Product) : ValidatedItem :=
  mkValidatedItem (ol_product_id item) (p_name product) (get_quantity item)
    (p_price product) (p_price product * inject_Z (get_quantity item))
    (p_category product).

Definition accepted_line (item : OrderLine) : list ValidatedItem :=
  match first_failing_rule item, get_product (ol_product_id item) with
  | None, Some product => [acceptance item product]
  | _, _ => []
  end.

Definition rejected_line (item : OrderLine) : list InvalidItem :=
  match first_failing_rule item with
  | Some r => [rejection r item]
  | None => []
  end.

Definition sum_Q (xs : list Q) : Q := fold_right Qplus 0 xs.

(** Total quantity requested of product [pid] over all the lines. *)
Definition requested_quantity (pid : string) (items : list OrderLine) : Z :=
  fold_right
    (fun item n =>
       match ol_product_id item with
       | Some k => if String.eqb k pid then (get_quantity item + n)%Z else n
       | None => n
       end)
    0%Z items.

(** A verdict key that holds a negative customer verdict, and its message. *)
Definition customer_invalid (slot : Slot CustomerVerdict) : Prop :=
  match slot with
  | Unset => False
  | Verdict v => cv_valid v = false
  | Failure _ => True
  end.

Definition customer_message (slot : Slot CustomerVerdict) : string :=
  match slot with
  | Unset => ""
  | Verdict v => cv_message v
  | Failure msg => msg
  end.

(** ** The paths of a run

    The state after each validation node of a run from [s], and the five
    ways a run ends: rejected after the parse, the customer, the items or
    the credit node, or approved. *)

Definition after_customer (tools : Tools) (s : OrderState) : OrderState :=
  validate_customer_node tools (parse_order s).

Definition after_items (tools : Tools) (s : OrderState) : OrderState :=
  validate_items_node tools (after_customer tools s).

Definition after_credit (tools : Tools) (s : OrderState) : OrderState :=
  check_credit_node tools (after_items tools s).

Inductive Outcome (tools : Tools) (s : OrderState) : OrderState -> Prop :=
| rejected_at_parse :
    st_errors (parse_order s) <> [] ->
    Outcome tools s (error_handler_node (parse_order s))
| rejected_at_customer :
    st_errors (parse_order s) = [] ->
    slot_flag cv_valid (st_customer_validation (after_customer tools s))
      = Returned false ->
    Outcome tools s (error_handler_node (after_customer tools s))
| rejected_at_items :
    st_errors (parse_order s) = [] ->
    slot_flag cv_valid (st_customer_validation (after_customer tools s))
      = Returned true ->
    slot_flag iv_valid (st_items_validation (after_items tools s))
      = Returned false ->
    Outcome tools s (error_handler_node (after_items tools s))
| rejected_at_credit :
    st_errors (parse_order s) = [] ->
    slot_flag cv_valid (st_customer_validation (after_customer tools s))
      = Returned true ->
    slot_flag iv_valid (st_items_validation (after_items tools s))
      = Returned true ->
    slot_flag cr_has_credit (st_credit_validation (after_credit tools s))
      = Returned false ->
    Outcome tools s (error_handler_node (after_credit tools s))
| approved_after_credit (final : OrderState) :
    st_errors (parse_order s) = [] ->
    slot_flag cv_valid (st_customer_validation (after_customer tools s))
      = Returned true ->
    slot_flag iv_valid (st_items_validation (after_items tools s))
      = Returned true ->
    slot_flag cr_has_credit (st_credit_validation (after_credit tools s))
      = Returned true ->
    process_order_node (after_credit tools s) = Returned final ->
    Outcome tools s final.

(** ** The console output of [src/main.py]

    What [print_validation_result] and [run_example_validations] hand to
    [console.print], in order: markup strings, panels and tables (headers
    and rows; the styles of the columns and the boxes are left to the
    library). The spinner of [Progress(transient=True)] leaves nothing on
    the console and is not part of the output. *)

Inductive Renderable : Type :=
| Markup (text : string)
| PanelOut (body title border_style : string)
| TableOut (title : option string) (columns : list string)
    (rows : list (list string)).

(** What a function has printed, and the [str] of the exception that ended
    it, if one did. *)
Record PrintRun : Type := mkPrintRun {
  printed : list Renderable;
  raised : option string
}.

Definition newline : string := String (Ascii.ascii_of_nat 10) "".

(** [s.upper()] on the ASCII letters, all that a status holds. *)
Definition upper_ascii (a : Ascii.ascii) : Ascii.ascii :=
  let n := Ascii.nat_of_ascii a in
  if ((97 <=? n) && (n <=? 122))%nat then Ascii.ascii_of_nat (n - 32) else a.

Fixpoint upper (s : string) : string :=
  match s with
  | EmptyString => EmptyString
  | String a rest => String (upper_ascii a) (upper rest)
  end.

(** [s * n]. *)
Fixpoint repeat_string (s : string) (n : nat) : string :=
  match n with
  | O => ""
  | S n' => s ++ repeat_string s n'
  end.

(** [f"  {i}. [color]{line}[/color]"] for [enumerate(lines, i)]. *)
Fixpoint numbered (color : string) (i : Z) (lines : list string)
  : list Renderable :=
  match lines with
  | [] => []
  | line :: rest =>
      Markup ("  " ++ str_int i ++ ". [" ++ color ++ "]" ++ line
                ++ "[/" ++ color ++ "]")
      :: numbered color (i + 1) rest
  end.

(** [order_data]: the keys [print_validation_result] reads. *)
Record OrderData : Type := mkOrderData {
  od_order_id : string;
  od_customer_id : string;
  od_items : list OrderLine
}.

(** [result["validation_details"].get(key, {})]: [None] stands for the
    default [{}], taken when the details are empty. *)
Definition details_customer (d : ValidationDetails)
  : option (Slot CustomerVerdict) :=
  match d with
  | EmptyDetails => None
  | ApprovedDetails customer _ _ _ => Some customer
  | RejectedDetails customer _ _ _ _ _ => Some customer
  end.

Definition details_items (d : ValidationDetails) : option (Slot ItemsVerdict) :=
  match d with
  | EmptyDetails => None
  | ApprovedDetails _ items _ _ => Some items
  | RejectedDetails _ items _ _ _ _ => Some items
  end.

Definition details_credit (d : ValidationDetails)
  : option (Slot CreditVerdict) :=
  match d with
  | EmptyDetails => None
  | ApprovedDetails _ _ credit _ => Some credit
  | RejectedDetails _ _ credit _ _ _ => Some credit
  end.

(** The row of one verdict in the table of validations: none when the value
    is falsy ([{}] or [None]); [flag] is [.get("valid")] or
    [.get("has_credit")], which the two-key dict of an [except] branch
    holds as [False]. *)
Definition verdict_row {V : Type} (name passed failed : string)
    (flag : V -> bool) (message : V -> string) (value : option (Slot V))
  : list (list string) :=
  let row (ok : bool) (details : string) :=
    let status := if ok then passed else failed in
    let style := if ok then "green" else "red" in
    [name; "[" ++ style ++ "]" ++ status ++ "[/" ++ style ++ "]"; details] in
  match value with
  | Some (Verdict v) => [row (flag v) (message v)]
  | Some (Failure msg) => [row false msg]
  | Some Unset => []
  | None => []
  end.

(** [Table.add_row] takes [None] for an empty cell. *)
Definition cell (x : option string) : string :=
  match x with Some s => s | None => "" end.

Definition validated_item_row (item : ValidatedItem) : list string :=
  [cell (vi_product_id item); vi_product_name item;
   str_int (vi_quantity item); "$" ++ format_2f (vi_unit_price item);
   "$" ++ format_2f (vi_item_total item)].

Definition print_validation_result (result : FinalResult)
    (order_data : OrderData) : PrintRun :=
  let order_info :=
    "[bold]Order ID:[/bold] " ++ od_order_id order_data ++ newline
      ++ "[bold]Customer ID:[/bold] " ++ od_customer_id order_data ++ newline
      ++ "[bold]Items:[/bold] " ++ str_len (od_items order_data) ++ newline
      ++ "[bold]Total:[/bold] $" ++ format_2f (fr_total_amount result) in
  let status_color := if fr_approved result then "green" else "red" in
  let status_icon := if fr_approved result then "✓" else "✗" in
  let border_style := if fr_approved result then "green" else "red" in
  let panel :=
    PanelOut order_info
      ("[" ++ status_color ++ "]" ++ status_icon ++ " "
         ++ upper (fr_status result) ++ "[/" ++ status_color ++ "]")
      border_style in
  let message :=
    Markup (newline ++ "[bold]" ++ fr_message result ++ "[/bold]" ++ newline) in
  let customer_val := details_customer (fr_validation_details result) in
  let items_val := details_items (fr_validation_details result) in
  let credit_val := details_credit (fr_validation_details result) in
  let table :=
    TableOut (Some "Detalles de Validación")
      ["Validación"; "Estado"; "Detalles"]
      (verdict_row "Cliente" "✓ Válido" "✗ Inválido" cv_valid cv_message
         customer_val
         ++ verdict_row "Items" "✓ Válido" "✗ Inválido" iv_valid iv_message
              items_val
         ++ verdict_row "Crédito" "✓ Suficiente" "✗ Insuficiente"
              cr_has_credit cr_message credit_val) in
  let errors :=
    if list_falsy (fr_errors result) then []
    else Markup (newline ++ "[bold red]Errores encontrados:[/bold red]")
         :: numbered "red" 1 (fr_errors result) in
  let warnings :=
    if list_falsy (fr_warnings result) then []
    else Markup (newline ++ "[bold yellow]Advertencias:[/bold yellow]")
         :: numbered "yellow" 1 (fr_warnings result) in
  let before_items := ([panel; message; table] ++ errors ++ warnings)%list in
  let rule :=
    Markup (newline ++ repeat_string "─" 80 ++ newline) in
  (* [result["approved"] and items_val.get("validated_items")] *)
  let validated : PyResult (list ValidatedItem) :=
    if fr_approved result then
      match items_val with
      | Some Unset => Raised none_has_no_get
      | Some (Verdict v) => Returned (iv_validated_items v)
      | Some (Failure _) => Returned []
      | None => Returned []
      end
    else Returned [] in
  match validated with
  | Raised e => mkPrintRun before_items (Some e)
  | Returned [] => mkPrintRun (before_items ++ [rule]) None
  | Returned items =>
      mkPrintRun
        (before_items
           ++ [Markup (newline ++ "[bold cyan]Items Aprobados:[/bold cyan]");
               TableOut None
                 ["Producto"; "Nombre"; "Cantidad"; "Precio Unit."; "Total"]
                 (map validated_item_row items);
               rule])
        None
  end.

(** [EXAMPLE_ORDERS], in the order of the source. *)
Record ExampleOrder : Type := mkExampleOrder {
  ex_order_id : string;
  ex_customer_id : string;
  ex_items : list OrderLine;
  ex_description : string
}.

Definition EXAMPLE_ORDERS : dict ExampleOrder :=
  [ ("CUST001",
     mkExampleOrder "ORD-001" "CUST001"
       [mkOrderLine (Some "PROD001") (Some 2%Z) (Some 1200.0);
        mkOrderLine (Some "PROD002") (Some 5%Z) (Some 25.0)]
       "Orden válida - Cliente activo con crédito suficiente");
    ("CUST002",
     mkExampleOrder "ORD-002" "CUST002"
       [mkOrderLine (Some "PROD001") (Some 5%Z) (Some 1200.0)]
       "Orden rechazada - Crédito insuficiente (necesita $6000, tiene $500)");
    ("CUST003",
     mkExampleOrder "ORD-003" "CUST003"
       [mkOrderLine (Some "PROD004") (Some 2%Z) (Some 350.0)]
       "Orden rechazada - Cliente inactivo");
    ("CUST004",
     mkExampleOrder "ORD-004" "CUST004"
       [mkOrderLine (Some "PROD005") (Some 3%Z) (Some 120.0);
        mkOrderLine (Some "PROD002") (Some 2%Z) (Some 25.0)]
       "Orden rechazada - Producto sin stock (PROD005)");
    ("CUST005",
     mkExampleOrder "ORD-005" "CUST005"
       [mkOrderLine (Some "PROD999") (Some 1%Z) (Some 100.0);
        mkOrderLine (Some "PROD001") (Some 2%Z) (Some 1200.0)]
       "Orden rechazada - Producto inexistente (PROD999)") ].

(** An entry of [results_summary]. *)
Record SummaryEntry : Type := mkSummaryEntry {
  se_order_id : string;
  se_customer_id : string;
  se_approved : bool;
  se_total : Q
}.

(** The first loop of [run_example_validations] over the orders still to
    run: the output so far, the summary so far, and the exception of
    [print_validation_result] if it raised. *)
Fixpoint run_examples (orders : list (string * ExampleOrder))
    (out : list Renderable) (results_summary : list SummaryEntry)
  : list Renderable * list SummaryEntry * option string :=
  match orders with
  | [] => (out, results_summary, None)
  | (_, order_data) :: rest =>
      let out :=
        (out ++ [Markup ("[bold yellow]Caso de Prueba:[/bold yellow] "
                           ++ ex_description order_data)])%list in
      let result :=
        validate_order (ex_order_id order_data) (ex_customer_id order_data)
          (ex_items order_data) in
      let shown :=
        print_validation_result result
          (mkOrderData (ex_order_id order_data) (ex_customer_id order_data)
             (ex_items order_data)) in
      let out := (out ++ printed shown)%list in
      match raised shown with
      | Some e => (out, results_summary, Some e)
      | None =>
          run_examples rest out
            (results_summary
               ++ [mkSummaryEntry (ex_order_id order_data)
                     (ex_customer_id order_data) (fr_approved result)
                     (fr_total_amount result)])
      end
  end.

(** The second loop: the rows of the summary table and the two counters. *)
Definition summary_row (summary : SummaryEntry) : list string :=
  let status := if se_approved summary then "✓ Aprobada" else "✗ Rechazada" in
  let status_style := if se_approved summary then "green" else "red" in
  [se_order_id summary; se_customer_id summary;
   "$" ++ format_2f (se_total summary);
   "[" ++ status_style ++ "]" ++ status ++ "[/" ++ status_style ++ "]"].

Definition count_summary (results_summary : list SummaryEntry) : nat * nat :=
  fold_left
    (fun counts summary =>
       if se_approved summary
       then (S (fst counts), snd counts)
       else (fst counts, S (snd counts)))
    results_summary (0%nat, 0%nat).

Definition run_example_validations : PrintRun :=
  let heading :=
    Markup ("[bold cyan]Ejecutando Validaciones de Ejemplo[/bold cyan]"
              ++ newline) in
  match run_examples EXAMPLE_ORDERS [heading] [] with
  | (out, _, Some e) => mkPrintRun out (Some e)
  | (out, results_summary, None) =>
      let counts := count_summary results_summary in
      mkPrintRun
        (out
           ++ [Markup ("[bold cyan]Resumen de Validaciones[/bold cyan]"
                         ++ newline);
               TableOut (Some "Resultados")
                 ["Order ID"; "Customer ID"; "Total"; "Estado"]
                 (map summary_row results_summary);
               Markup (newline ++ "[green]Aprobadas: "
                         ++ str_int (Z.of_nat (fst counts))
                         ++ "[/green] | [red]Rechazadas: "
                         ++ str_int (Z.of_nat (snd counts)) ++ "[/red]"
                         ++ newline)])
        None
  end.

(** Reading a key after assignments to the state. *)
Ltac state_simpl :=
  cbn [st_order_id st_customer_id st_items st_customer_validation
       st_items_validation st_credit_validation st_status st_errors
       st_warnings st_total_amount st_approved st_message
       st_validation_details set_customer_validation set_items_validation
       set_credit_validation set_status set_errors set_warnings
       set_total_amount set_approved set_message set_validation_details
       append_error initial_state] in *.

(** ** The item loop *)

Lemma first_failing_rule_cases (item : OrderLine) :
  first_failing_rule item =
    if negb (rule_holds R_product_exists item) then Some R_product_exists
    else if negb (rule_holds R_quantity_positive item)
         then Some R_quantity_positive
    else if negb (rule_holds R_stock_available item)
         then Some R_stock_available
    else if negb (rule_holds R_price_matches item) then Some R_price_matches
    else None.
Proof. reflexivity. Qed.

Lemma line_passes_iff (item : OrderLine) :
  line_passes item = true <-> first_failing_rule item = None.
Proof.
  rewrite first_failing_rule_cases. unfold line_passes, rules_in_order.
  cbn [forallb].
  destruct (rule_holds R_product_exists item),
    (rule_holds R_quantity_positive item),
    (rule_holds R_stock_available item),
    (rule_holds R_price_matches item); cbn; split; congruence.
Qed.

(** One iteration of the loop, read through the rules. *)
Lemma validate_item_classifies (acc : ItemsLoop) (item : OrderLine) :
  validate_item acc item =
    match first_failing_rule item with
    | Some r => append_invalid acc (rejection r item)
    | None =>
        mkItemsLoop (loop_validated acc ++ accepted_line item)
          (loop_invalid acc) (loop_total acc + line_total item)
    end.
Proof.
  unfold accepted_line. rewrite first_failing_rule_cases.
  unfold validate_item, rule_holds, rejection, line_total, catalog_stock,
    catalog_price, asserted_price, acceptance, price_differs, Qgt_bool.
  destruct (get_product (ol_product_id item)) as [product|];
    cbn [negb]; cbv beta iota zeta; [|reflexivity].
  rewrite (Z.leb_antisym 0 (get_quantity item)), Z.gtb_ltb,
    (Z.ltb_antisym (get_quantity item) (p_stock product)).
  destruct (0 <? get_quantity item)%Z; cbn [negb]; cbv beta iota zeta;
    [|reflexivity].
  destruct (get_quantity item <=? p_stock product)%Z; cbn [negb];
    cbv beta iota zeta; [|reflexivity].
  destruct (ol_unit_price item) as [p|]; cbn [negb]; cbv beta iota zeta;
    [|reflexivity].
  destruct (Qle_bool (Qabs (p - p_price product)) 0.01); reflexivity.
Qed.

Lemma passing_line_has_product (item : OrderLine) :
  first_failing_rule item = None ->
  exists product, get_product (ol_product_id item) = Some product.
Proof.
  rewrite first_failing_rule_cases. unfold rule_holds at 1.
  destruct (get_product (ol_product_id item)) as [product|].
  - intros _. now exists product.
  - cbn [negb]. discriminate.
Qed.

Lemma accepted_xor_rejected (item : OrderLine) :
  (exists v, accepted_line item = [v] /\ rejected_line item = [])
  \/ (exists i, accepted_line item = [] /\ rejected_line item = [i]).
Proof.
  unfold accepted_line, rejected_line.
  destruct (first_failing_rule item) as [r|] eqn:Hr.
  - right. now exists (rejection r item).
  - left. destruct (passing_line_has_product item Hr) as [product ->].
    now exists (acceptance item product).
Qed.

Lemma validate_item_lines (acc : ItemsLoop) (item : OrderLine) :
  loop_validated (validate_item acc item)
    = (loop_validated acc ++ accepted_line item)%list
  /\ loop_invalid (validate_item acc item)
    = (loop_invalid acc ++ rejected_line item)%list.
Proof.
  rewrite validate_item_classifies. unfold rejected_line, accepted_line.
  destruct (first_failing_rule item) as [r|]; cbn.
  - now rewrite app_nil_r.
  - now rewrite app_nil_r.
Qed.

(** The loop keeps the input order in both sequences. *)
Lemma fold_validate_item_lines (items : list OrderLine) :
  forall acc,
    loop_validated (fold_left validate_item items acc)
      = (loop_validated acc ++ flat_map accepted_line items)%list
    /\ loop_invalid (fold_left validate_item items acc)
      = (loop_invalid acc ++ flat_map rejected_line items)%list.
Proof.
  induction items as [|item items IH]; intros acc; cbn [fold_left flat_map].
  - now rewrite !app_nil_r.
  - destruct (IH (validate_item acc item)) as [Hv Hi].
    destruct (validate_item_lines acc item) as [Hv1 Hi1].
    rewrite Hv, Hi, Hv1, Hi1, <- !app_assoc. now split.
Qed.

(** The running total adds [line_total] for the passing lines only. *)
Lemma fold_validate_item_total (items : list OrderLine) :
  forall acc,
    loop_total (fold_left validate_item items acc)
      == loop_total acc + sum_Q (map line_total (filter line_passes items)).
Proof.
  induction items as [|item items IH]; intros acc;
    cbn [fold_left filter map].
  - unfold sum_Q; cbn [fold_right]. ring.
  - rewrite IH, validate_item_classifies.
    destruct (line_passes item) eqn:Hp.
    + apply line_passes_iff in Hp. rewrite Hp.
      cbn [loop_total map]. unfold sum_Q; cbn [fold_right]. ring.
    + destruct (first_failing_rule item) as [r|] eqn:Hr.
      * cbn [append_invalid loop_total]. reflexivity.
      * apply line_passes_iff in Hr. congruence.
Qed.

(** When every line passes the total is the left-to-right sum itself. *)
Lemma fold_validate_item_total_passing (items : list OrderLine) :
  forall acc,
    forallb line_passes items = true ->
    loop_total (fold_left validate_item items acc)
      = fold_left (fun t item => t + line_total item) items (loop_total acc).
Proof.
  induction items as [|item items IH]; intros acc Hall; cbn [fold_left].
  - reflexivity.
  - cbn [forallb] in Hall. apply andb_prop in Hall as [Hp Hall].
    rewrite (IH _ Hall), validate_item_classifies.
    apply line_passes_iff in Hp. now rewrite Hp.
Qed.

(** [validate_order_items] through the rules, the empty list included. *)
Lemma validate_order_items_lines (items : list OrderLine) :
  iv_validated_items (validate_order_items items)
    = flat_map accepted_line items
  /\ iv_invalid_items (validate_order_items items)
    = flat_map rejected_line items.
Proof.
  unfold validate_order_items. destruct items as [|item items].
  - now split.
  - cbn [list_falsy iv_validated_items iv_invalid_items].
    apply (fold_validate_item_lines (item :: items) (mkItemsLoop [] [] 0.0)).
Qed.

Lemma validate_order_items_total (items : list OrderLine) :
  iv_total_amount (validate_order_items items)
    == sum_Q (map line_total (filter line_passes items)).
Proof.
  unfold validate_order_items. destruct items as [|item items].
  - reflexivity.
  - cbn [list_falsy iv_total_amount].
    rewrite fold_validate_item_total. cbn [loop_total]. ring.
Qed.

Lemma validate_order_items_valid (items : list OrderLine) :
  iv_valid (validate_order_items items)
    = (length (iv_invalid_items (validate_order_items items)) =? 0)%nat
      && (0 <? length (iv_validated_items (validate_order_items items)))%nat.
Proof.
  unfold validate_order_items. destruct items as [|item items]; reflexivity.
Qed.

Lemma flat_map_accepted_all (items : list OrderLine) :
  forallb line_passes items = true ->
  flat_map rejected_line items = []
  /\ length (flat_map accepted_line items) = length items.
Proof.
  induction items as [|item items IH]; cbn [forallb flat_map length].
  - now split.
  - intros Hall. apply andb_prop in Hall as [Hp Hall].
    destruct (IH Hall) as [Hr Ha]. apply line_passes_iff in Hp.
    destruct (accepted_xor_rejected item) as [[v [Hv Hi]]|[i [Hv Hi]]].
    + rewrite Hv, Hi, Hr. cbn. now rewrite Ha.
    + unfold rejected_line in Hi. rewrite Hp in Hi. discriminate.
Qed.

Lemma flat_map_rejected_all (items : list OrderLine) :
  forallb (fun item => negb (line_passes item)) items = true ->
  flat_map accepted_line items = [].
Proof.
  induction items as [|item items IH]; cbn [forallb flat_map].
  - reflexivity.
  - intros Hall. apply andb_prop in Hall as [Hp Hall].
    rewrite (IH Hall), app_nil_r. unfold accepted_line.
    destruct (first_failing_rule item) eqn:Hr; [reflexivity|].
    apply line_passes_iff in Hr. rewrite Hr in Hp. discriminate.
Qed.

Lemma all_pass_forallb (items : list OrderLine) :
  (forall item, In item items -> line_passes item = true) ->
  forallb line_passes items = true.
Proof. intros H. now apply forallb_forall. Qed.

Lemma filter_all_pass (items : list OrderLine) :
  forallb line_passes items = true -> filter line_passes items = items.
Proof.
  induction items as [|item items IH]; cbn [forallb filter]; [reflexivity|].
  intros Hall. apply andb_prop in Hall as [Hp Hall].
  now rewrite Hp, (IH Hall).
Qed.

Lemma lines_partition_length (items : list OrderLine) :
  (length (flat_map accepted_line items)
     + length (flat_map rejected_line items))%nat = length items.
Proof.
  induction items as [|item items IH]; cbn [flat_map length]; [reflexivity|].
  rewrite !length_app.
  destruct (accepted_xor_rejected item) as [[v [-> ->]]|[i [-> ->]]];
    cbn [length]; lia.
Qed.

Lemma line_total_same (item item' : OrderLine) :
  ol_product_id item' = ol_product_id item ->
  get_quantity item' = get_quantity item ->
  line_total item' = line_total item.
Proof.
  intros Hp Hq. unfold line_total, catalog_price. now rewrite Hp, Hq.
Qed.

Lemma fold_line_total_same (items : list OrderLine) :
  forall items' t,
    map ol_product_id items' = map ol_product_id items ->
    map get_quantity items' = map get_quantity items ->
    fold_left (fun t item => t + line_total item) items' t
      = fold_left (fun t item => t + line_total item) items t.
Proof.
  induction items as [|item items IH]; intros [|item' items'] t Hp Hq;
    cbn [map] in Hp, Hq; try discriminate; cbn [fold_left]; [reflexivity|].
  injection Hp as Hp1 Hp. injection Hq as Hq1 Hq.
  rewrite (line_total_same item item' Hp1 Hq1). now apply IH.
Qed.

(** ** Properties of the item check *)

(** C3: the verdict is valid exactly when no line is invalid and at least
    one line is validated; the empty list, and a list every line of which
    fails some rule, are not valid. *)
Theorem C3_items_valid_iff (items : list OrderLine) :
  (iv_valid (validate_order_items items) = true
   <-> iv_invalid_items (validate_order_items items) = []
       /\ iv_validated_items (validate_order_items items) <> [])
  /\ iv_valid (validate_order_items []) = false
  /\ ((forall item, In item items -> first_failing_rule item <> None) ->
      iv_valid (validate_order_items items) = false).
Proof.
  split; [|split].
  - rewrite validate_order_items_valid.
    destruct (iv_invalid_items (validate_order_items items)) as [|i rest_i],
      (iv_validated_items (validate_order_items items)) as [|v rest_v];
      cbn; split; try discriminate; try tauto.
    + intros _. split; [reflexivity|discriminate].
    + intros [H _]. discriminate.
  - reflexivity.
  - intros Hall. rewrite validate_order_items_valid.
    destruct (validate_order_items_lines items) as [-> _].
    rewrite flat_map_rejected_all; [apply andb_false_r|].
    apply forallb_forall. intros item Hin.
    destruct (line_passes item) eqn:Hp; [|reflexivity].
    apply line_passes_iff in Hp. now destruct (Hall item Hin).
Qed.

Lemma C3_items_valid_iff_witness :
  iv_valid
    (validate_order_items
       [mkOrderLine (Some "PROD005") (Some 10%Z) (Some 120.0);
        mkOrderLine (Some "PROD999") (Some 1%Z) None]) = false.
Proof.
  apply (C3_items_valid_iff
           [mkOrderLine (Some "PROD005") (Some 10%Z) (Some 120.0);
            mkOrderLine (Some "PROD999") (Some 1%Z) None]).
  intros item [<-|[<-|[]]]; vm_compute; discriminate.
Defined.

(** C6: every line lands in exactly one of the two sequences, both in input
    order; a line is validated when no rule fails and otherwise carries the
    record of the first rule, in the order product, quantity, stock, price,
    that fails. *)
Theorem C6_lines_classified_by_first_failing_rule (items : list OrderLine) :
  iv_validated_items (validate_order_items items)
    = flat_map accepted_line items
  /\ iv_invalid_items (validate_order_items items)
    = flat_map rejected_line items
  /\ (length (iv_validated_items (validate_order_items items))
        + length (iv_invalid_items (validate_order_items items)))%nat
     = length items
  /\ forall item,
       first_failing_rule item
         = find (fun r => negb (rule_holds r item))
             [R_product_exists; R_quantity_positive; R_stock_available;
              R_price_matches]
       /\ match first_failing_rule item with
          | Some r =>
              accepted_line item = [] /\ rejected_line item = [rejection r item]
          | None =>
              rejected_line item = []
              /\ exists product,
                   get_product (ol_product_id item) = Some product
                   /\ accepted_line item = [acceptance item product]
          end.
Proof.
  destruct (validate_order_items_lines items) as [Hv Hi].
  rewrite Hv, Hi. repeat split; [apply lines_partition_length|].
  unfold accepted_line, rejected_line.
  destruct (first_failing_rule item) as [r|] eqn:Hr; [now split|].
  split; [reflexivity|].
  destruct (passing_line_has_product item Hr) as [product Hprod].
  exists product. now rewrite Hprod.
Qed.

(** A line that breaks every rule at once is recorded once, with the reason
    of the first rule. *)
Example first_rule_wins :
  map ii_reason
    (iv_invalid_items
       (validate_order_items
          [mkOrderLine (Some "PROD999") (Some (-3)%Z) (Some 1.0);
           mkOrderLine (Some "PROD005") (Some 0%Z) (Some 1.0);
           mkOrderLine (Some "PROD005") (Some 4%Z) (Some 1.0);
           mkOrderLine (Some "PROD001") (Some 4%Z) (Some 1.0);
           mkOrderLine None None None]))
  = ["Producto PROD999 no existe en el catálogo";
     "Cantidad debe ser mayor a 0";
     "Stock insuficiente. Solicitado: 4, Disponible: 0";
     "Precio incorrecto. Proporcionado: $1.00, Actual: $1200.00";
     "Producto None no existe en el catálogo"].
Proof. vm_compute. reflexivity. Qed.

(** C4: when every line passes, the total is the sum of catalog price times
    requested quantity, and a second order with the same products and
    quantities whose lines also pass, whatever prices it asserts, has the
    same total. *)
Theorem C4_total_from_catalog_prices (items : list OrderLine) :
  (forall item, In item items -> line_passes item = true) ->
  iv_total_amount (validate_order_items items) == sum_Q (map line_total items)
  /\ forall items',
       (forall item, In item items' -> line_passes item = true) ->
       map ol_product_id items' = map ol_product_id items ->
       map get_quantity items' = map get_quantity items ->
       iv_total_amount (validate_order_items items')
         = iv_total_amount (validate_order_items items).
Proof.
  intros Hall. apply all_pass_forallb in Hall. split.
  - now rewrite validate_order_items_total, filter_all_pass.
  - intros items' Hall' Hp Hq. apply all_pass_forallb in Hall'.
    unfold validate_order_items.
    destruct items as [|item items], items' as [|item' items'];
      try discriminate; [reflexivity|].
    cbn [list_falsy iv_total_amount].
    rewrite !fold_validate_item_total_passing by assumption.
    now apply fold_line_total_same.
Qed.

Lemma C4_total_from_catalog_prices_witness :
  iv_total_amount
    (validate_order_items
       [mkOrderLine (Some "PROD001") (Some 2%Z) (Some 1200.0);
        mkOrderLine (Some "PROD002") (Some 5%Z) (Some 25.0)])
  == 2525.0
  /\ iv_total_amount
       (validate_order_items
          [mkOrderLine (Some "PROD001") (Some 2%Z) (Some 1199.99);
           mkOrderLine (Some "PROD002") (Some 5%Z) None])
     = iv_total_amount
         (validate_order_items
            [mkOrderLine (Some "PROD001") (Some 2%Z) (Some 1200.0);
             mkOrderLine (Some "PROD002") (Some 5%Z) (Some 25.0)]).
Proof.
  destruct (C4_total_from_catalog_prices
              [mkOrderLine (Some "PROD001") (Some 2%Z) (Some 1200.0);
               mkOrderLine (Some "PROD002") (Some 5%Z) (Some 25.0)])
    as [Hsum Hsame].
  - intros item [<-|[<-|[]]]; vm_compute; reflexivity.
  - split.
    + rewrite Hsum. vm_compute. reflexivity.
    + apply Hsame; [|reflexivity|reflexivity].
      intros item [<-|[<-|[]]]; vm_compute; reflexivity.
Defined.

(** ** Properties of the credit check *)

(** C5: for a customer of the catalog the verdict grants credit exactly when
    limit minus balance is at least the required amount; equality is
    sufficient, one cent less is not, and the message of an insufficient
    verdict states the deficit, required minus available. *)
Theorem C5_credit_boundary_inclusive
    (customer_id : string) (customer : Customer) (order_amount : Q) :
  dict_get MOCK_CUSTOMERS customer_id = Some customer ->
  let available := c_credit_limit customer - c_current_balance customer in
  let verdict := check_customer_credit customer_id order_amount in
  (cr_has_credit verdict = true <-> order_amount <= available)
  /\ (available == order_amount -> cr_has_credit verdict = true)
  /\ (available == order_amount - 0.01 -> cr_has_credit verdict = false)
  /\ (cr_has_credit verdict = false ->
      cr_message verdict
        = "Crédito insuficiente. Disponible: $" ++ format_2f available
            ++ ", Requerido: $" ++ format_2f order_amount
            ++ ", Falta: $" ++ format_2f (order_amount - available))
  /\ cr_available_credit verdict = available
  /\ cr_required_amount verdict = order_amount.
Proof.
  intros Hfound. cbv zeta. unfold check_customer_credit. rewrite Hfound.
  cbv zeta. generalize (c_credit_limit customer - c_current_balance customer).
  intros available. unfold Qge_bool.
  destruct (Qle_bool order_amount available) eqn:Hle;
    cbn [cr_has_credit cr_message cr_available_credit cr_required_amount].
  - apply Qle_bool_iff in Hle.
    split; [tauto|]. split; [tauto|]. split; [|split; [discriminate|tauto]].
    intros Heq. exfalso. rewrite Heq in Hle. clear - Hle. lra.
  - assert (Hnle : ~ order_amount <= available).
    { intros H. apply Qle_bool_iff in H. congruence. }
    split; [split; [discriminate|tauto]|].
    split; [|tauto].
    intros Heq. exfalso. apply Hnle. rewrite Heq. apply Qle_refl.
Qed.

Lemma C5_credit_boundary_inclusive_witness :
  cr_has_credit (check_customer_credit "CUST005" 5000.0) = true
  /\ cr_has_credit (check_customer_credit "CUST005" 5000.01) = false
  /\ cr_message (check_customer_credit "CUST005" 5000.01)
     = "Crédito insuficiente. Disponible: $5000.00, Requerido: $5000.01, Falta: $0.01".
Proof.
  split; [|split].
  - apply (C5_credit_boundary_inclusive "CUST005"
             (mkCustomer "CUST005" "Enterprise Systems"
                "contact@enterprise.com" "active" 20000.0 15000.0) 5000.0);
      reflexivity.
  - apply (C5_credit_boundary_inclusive "CUST005"
             (mkCustomer "CUST005" "Enterprise Systems"
                "contact@enterprise.com" "active" 20000.0 15000.0) 5000.01);
      reflexivity.
  - destruct (C5_credit_boundary_inclusive "CUST005"
                (mkCustomer "CUST005" "Enterprise Systems"
                   "contact@enterprise.com" "active" 20000.0 15000.0) 5000.01
                eq_refl) as (_ & _ & _ & Hmsg & _).
    rewrite Hmsg; reflexivity.
Defined.

(** ** The workflow as a sequence of guarded steps *)

(** One step of [run] at a node other than [N_END]. *)
Lemma run_step (tools : Tools) (fuel : nat) (n : Node) (s : OrderState) :
  n <> N_END ->
  run tools (S fuel) n s =
    match node_function tools n s with
    | Raised e => Raised e
    | Returned s' =>
        match next_node n s' with
        | Raised e => Raised e
        | Returned n' => run tools fuel n' s'
        end
    end.
Proof. destruct n; intros H; [reflexivity..|now destruct H]. Qed.

Lemma run_end (tools : Tools) (fuel : nat) (s : OrderState) :
  run tools fuel N_END s = Returned s.
Proof. destruct fuel; reflexivity. Qed.

Lemma run_error_handler (tools : Tools) (fuel : nat) (s : OrderState) :
  run tools (S fuel) N_error_handler s = Returned (error_handler_node s).
Proof. rewrite run_step by discriminate. cbn [node_function next_node].
  apply run_end. Qed.

Lemma run_process_order (tools : Tools) (fuel : nat) (s : OrderState) :
  run tools (S fuel) N_process_order s = process_order_node s.
Proof.
  rewrite run_step by discriminate. cbn [node_function next_node].
  destruct (process_order_node s); [reflexivity|apply run_end].
Qed.

(** The run of the graph, node by node: the limit of 25 steps is never
    reached, a run takes at most five. *)
Lemma app_invoke_paths (tools : Tools) (s : OrderState) :
  app_invoke tools s =
    let s1 := parse_order s in
    if String.eqb (st_status s1) "validating" then
      let s2 := validate_customer_node tools s1 in
      match slot_flag cv_valid (st_customer_validation s2) with
      | Raised e => Raised e
      | Returned false => Returned (error_handler_node s2)
      | Returned true =>
          let s3 := validate_items_node tools s2 in
          match slot_flag iv_valid (st_items_validation s3) with
          | Raised e => Raised e
          | Returned false => Returned (error_handler_node s3)
          | Returned true =>
              let s4 := check_credit_node tools s3 in
              match slot_flag cr_has_credit (st_credit_validation s4) with
              | Raised e => Raised e
              | Returned false => Returned (error_handler_node s4)
              | Returned true => process_order_node s4
              end
          end
      end
    else Returned (error_handler_node s1).
Proof.
  unfold app_invoke, recursion_limit.
  rewrite run_step by discriminate. cbn [node_function next_node].
  unfold after_parse_order.
  destruct (String.eqb (st_status (parse_order s)) "validating");
    [|apply run_error_handler].
  rewrite run_step by discriminate. cbn [node_function next_node].
  unfold should_continue_after_customer.
  destruct (slot_flag cv_valid _) as [e|[|]];
    [reflexivity| |apply run_error_handler].
  rewrite run_step by discriminate. cbn [node_function next_node].
  unfold should_continue_after_items.
  destruct (slot_flag iv_valid _) as [e|[|]];
    [reflexivity| |apply run_error_handler].
  rewrite run_step by discriminate. cbn [node_function next_node].
  unfold should_continue_after_credit.
  destruct (slot_flag cr_has_credit _) as [e|[|]];
    [reflexivity| |apply run_error_handler].
  apply run_process_order.
Qed.

(** What [parse_order] leaves in the state. *)
Lemma parse_order_state (s : OrderState) :
  let s1 := parse_order s in
  st_order_id s1 = st_order_id s
  /\ st_customer_id s1 = st_customer_id s
  /\ st_items s1 = st_items s
  /\ st_customer_validation s1 = st_customer_validation s
  /\ st_items_validation s1 = st_items_validation s
  /\ st_credit_validation s1 = st_credit_validation s
  /\ st_total_amount s1 = 0.0
  /\ st_warnings s1 = []
  /\ st_status s1 = (if list_falsy (st_errors s1) then "validating" else "error")
  /\ (st_errors s1 = []
      <-> st_order_id s <> "" /\ st_customer_id s <> "" /\ st_items s <> []).
Proof.
  destruct s as [o c items cv iv crv st errs warns total appr msg det].
  unfold parse_order. state_simpl.
  destruct o as [|a o], c as [|b c], items as [|item items];
    cbn; repeat split; try reflexivity; try discriminate;
    try (intros (H1 & H2 & H3); congruence).
Qed.

(** Appending the errors of the invalid lines touches [errors] only. *)
Lemma fold_append_error (f : InvalidItem -> string) (l : list InvalidItem) :
  forall s,
    fold_left (fun state i => append_error state (f i)) l s
      = set_errors s (st_errors s ++ map f l).
Proof.
  induction l as [|i l IH]; intros s; cbn [fold_left map].
  - rewrite app_nil_r. now destruct s.
  - rewrite IH. unfold append_error. state_simpl.
    now rewrite <- app_assoc.
Qed.

Lemma customer_invalid_iff (slot : Slot CustomerVerdict) :
  customer_invalid slot <-> slot_flag cv_valid slot = Returned false.
Proof.
  destruct slot as [|v|msg]; cbn [customer_invalid slot_flag].
  - split; [tauto|discriminate].
  - split; congruence.
  - split; auto.
Qed.

(** What [validate_customer_node] leaves in the state. *)
Lemma validate_customer_node_state (tools : Tools) (s : OrderState) :
  let s2 := validate_customer_node tools s in
  st_order_id s2 = st_order_id s
  /\ st_customer_id s2 = st_customer_id s
  /\ st_items s2 = st_items s
  /\ st_items_validation s2 = st_items_validation s
  /\ st_credit_validation s2 = st_credit_validation s
  /\ st_total_amount s2 = st_total_amount s
  /\ st_warnings s2 = st_warnings s
  /\ exists valid,
       slot_flag cv_valid (st_customer_validation s2) = Returned valid
       /\ st_errors s2
          = (if valid then st_errors s
             else st_errors s ++ [customer_message (st_customer_validation s2)])%list
       /\ (valid = true ->
           exists v, st_customer_validation s2 = Verdict v
                     /\ invoke_validate_customer_exists tools (st_customer_id s)
                        = Returned v).
Proof.
  unfold validate_customer_node.
  destruct (invoke_validate_customer_exists tools (st_customer_id s))
    as [e|v]; [|destruct (cv_valid v) eqn:Hv]; cbn [negb]; state_simpl;
    cbn [slot_flag customer_message]; repeat (split; [reflexivity|]).
  - exists false. split; [reflexivity|]. split; [reflexivity|discriminate].
  - exists true. rewrite Hv. split; [reflexivity|]. split; [reflexivity|].
    intros _. exists v. now split.
  - exists false. rewrite Hv. split; [reflexivity|].
    split; [reflexivity|discriminate].
Qed.

(** What [validate_items_node] leaves in the state. *)
Lemma validate_items_node_state (tools : Tools) (s : OrderState) :
  let s3 := validate_items_node tools s in
  st_order_id s3 = st_order_id s
  /\ st_customer_id s3 = st_customer_id s
  /\ st_items s3 = st_items s
  /\ st_customer_validation s3 = st_customer_validation s
  /\ st_credit_validation s3 = st_credit_validation s
  /\ st_warnings s3 = st_warnings s
  /\ (forall v, st_items_validation s3 = Verdict v ->
        invoke_validate_order_items tools (st_items s) = Returned v
        /\ st_total_amount s3 = iv_total_amount v)
  /\ exists valid,
       slot_flag iv_valid (st_items_validation s3) = Returned valid
       /\ (valid = true -> st_errors s3 = st_errors s)
       /\ (valid = false -> st_errors s3 <> []).
Proof.
  unfold validate_items_node.
  destruct (invoke_validate_order_items tools (st_items s)) as [e|v];
    [|destruct (iv_valid v) eqn:Hv]; cbn [negb]; cbv zeta;
    rewrite ?fold_append_error; state_simpl; cbn [slot_flag];
    repeat (split; [reflexivity|]).
  - split; [intros v' H; discriminate|]. exists false.
    split; [reflexivity|]. split; [discriminate|].
    intros _ H. now apply app_eq_nil in H as [_ H].
  - split; [intros v' H; injection H as <-; now split|].
    exists true. rewrite Hv. split; [reflexivity|].
    split; [reflexivity|discriminate].
  - split; [intros v' H; injection H as <-; now split|].
    exists false. rewrite Hv. split; [reflexivity|]. split; [discriminate|].
    intros _ H. apply app_eq_nil in H as [H _].
    now apply app_eq_nil in H as [_ H].
Qed.

(** What [check_credit_node] leaves in the state. *)
Lemma check_credit_node_state (tools : Tools) (s : OrderState) :
  let s4 := check_credit_node tools s in
  st_order_id s4 = st_order_id s
  /\ st_customer_id s4 = st_customer_id s
  /\ st_items s4 = st_items s
  /\ st_customer_validation s4 = st_customer_validation s
  /\ st_items_validation s4 = st_items_validation s
  /\ st_total_amount s4 = st_total_amount s
  /\ st_warnings s4 = st_warnings s
  /\ exists has_credit,
       slot_flag cr_has_credit (st_credit_validation s4) = Returned has_credit
       /\ (has_credit = true ->
           st_errors s4 = st_errors s
           /\ exists v, invoke_check_customer_credit tools (st_customer_id s)
                          (st_total_amount s) = Returned v
                        /\ cr_has_credit v = true)
       /\ (has_credit = false -> st_errors s4 <> []).
Proof.
  unfold check_credit_node.
  destruct (invoke_check_customer_credit tools (st_customer_id s)
              (st_total_amount s)) as [e|v];
    [|destruct (cr_has_credit v) eqn:Hv]; cbn [negb]; state_simpl;
    cbn [slot_flag]; repeat (split; [reflexivity|]).
  - exists false. split; [reflexivity|]. split; [discriminate|].
    intros _ H. now apply app_eq_nil in H as [_ H].
  - exists true. rewrite Hv. split; [reflexivity|].
    split; [|discriminate]. intros _. split; [reflexivity|].
    exists v. now split.
  - exists false. rewrite Hv. split; [reflexivity|]. split; [discriminate|].
    intros _ H. now apply app_eq_nil in H as [_ H].
Qed.

(** What the two terminal nodes leave in the state. *)
Lemma error_handler_node_state (s : OrderState) :
  let s' := error_handler_node s in
  st_status s' = "rejected"
  /\ st_approved s' = false
  /\ st_errors s' = st_errors s
  /\ st_warnings s' = st_warnings s
  /\ st_total_amount s' = st_total_amount s
  /\ st_customer_validation s' = st_customer_validation s
  /\ st_items_validation s' = st_items_validation s
  /\ st_credit_validation s' = st_credit_validation s
  /\ st_message s'
     = "Orden " ++ st_order_id s ++ " rechazada. "
         ++ str_int (Z.of_nat (length (st_errors s)))
         ++ " error(es) encontrado(s)."
  /\ st_validation_details s'
     = RejectedDetails (st_customer_validation s) (st_items_validation s)
         (st_credit_validation s) (st_errors s) (st_warnings s)
         (mkSummary (st_order_id s) (st_customer_id s) (st_total_amount s)
            None false (Some (length (st_errors s)))).
Proof. unfold error_handler_node. state_simpl. repeat split. Qed.

Lemma process_order_node_state (s s' : OrderState) :
  process_order_node s = Returned s' ->
  st_status s' = "approved"
  /\ st_approved s' = true
  /\ st_errors s' = st_errors s
  /\ st_total_amount s' = st_total_amount s
  /\ st_customer_validation s' = st_customer_validation s
  /\ st_items_validation s' = st_items_validation s
  /\ st_credit_validation s' = st_credit_validation s.
Proof.
  unfold process_order_node. state_simpl.
  destruct (st_items_validation s) eqn:Hs; [discriminate| |];
    intros H; injection H as <-; state_simpl; repeat split; now rewrite ?Hs.
Qed.

(** [process_order_node] returns whenever the items key holds a dict, as it
    does on every path that reaches the node. *)
Lemma process_order_node_returns (s : OrderState) :
  st_items_validation s <> Unset ->
  exists s', process_order_node s = Returned s'.
Proof.
  unfold process_order_node. state_simpl.
  destruct (st_items_validation s); [congruence| |]; intros _; eauto.
Qed.

(** Every run of the graph returns a state, along one of the five paths. *)
Lemma app_invoke_outcome (tools : Tools) (s : OrderState) :
  exists final, app_invoke tools s = Returned final /\ Outcome tools s final.
Proof.
  rewrite app_invoke_paths. cbv zeta.
  destruct (parse_order_state s) as (_ & _ & _ & _ & _ & _ & _ & _ & Hst & _).
  rewrite Hst.
  destruct (st_errors (parse_order s)) as [|err errs] eqn:Herr;
    cbn [list_falsy].
  2:{ eexists. split; [reflexivity|]. apply rejected_at_parse. congruence. }
  change (String.eqb "validating" "validating") with true. cbv iota.
  fold (after_customer tools s).
  destruct (validate_customer_node_state tools (parse_order s))
    as (_ & _ & _ & _ & _ & _ & _ & valid & Hc & _).
  fold (after_customer tools s) in Hc. rewrite Hc. destruct valid.
  2:{ eexists. split; [reflexivity|]. now apply rejected_at_customer. }
  fold (after_items tools s).
  destruct (validate_items_node_state tools (after_customer tools s))
    as (_ & _ & _ & _ & _ & _ & _ & ivalid & Hi & _).
  fold (after_items tools s) in Hi. rewrite Hi. destruct ivalid.
  2:{ eexists. split; [reflexivity|]. now apply rejected_at_items. }
  fold (after_credit tools s).
  destruct (check_credit_node_state tools (after_items tools s))
    as (_ & _ & _ & _ & Hiv & _ & _ & has_credit & Hcr & _).
  fold (after_credit tools s) in Hiv, Hcr. rewrite Hcr. destruct has_credit.
  2:{ eexists. split; [reflexivity|]. now apply rejected_at_credit. }
  destruct (process_order_node_returns (after_credit tools s)) as [final Hp].
  { rewrite Hiv. intros Hu. rewrite Hu in Hi. discriminate. }
  exists final. split; [exact Hp|]. now apply approved_after_credit.
Qed.

(** The errors of a state the reject handler is reached with. *)
Lemma outcome_rejected_errors (tools : Tools) (s final : OrderState) :
  Outcome tools s final ->
  st_status final = "rejected" ->
  st_errors final <> []
  /\ st_approved final = false
  /\ st_message final
     = "Orden " ++ st_order_id s ++ " rechazada. "
         ++ str_int (Z.of_nat (length (st_errors final)))
         ++ " error(es) encontrado(s).".
Proof.
  destruct (parse_order_state s)
    as (Ho1 & _ & _ & _ & _ & _ & _ & _ & _ & _).
  destruct (validate_customer_node_state tools (parse_order s))
    as (Ho2 & _ & _ & _ & _ & _ & _ & valid & Hc & He2 & _).
  destruct (validate_items_node_state tools (after_customer tools s))
    as (Ho3 & _ & _ & _ & _ & _ & _ & ivalid & Hi & _ & He3).
  destruct (check_credit_node_state tools (after_items tools s))
    as (Ho4 & _ & _ & _ & _ & _ & _ & has_credit & Hcr & _ & He4).
  fold (after_customer tools s) in Ho2, Hc, He2.
  fold (after_items tools s) in Ho3, Hi, He3.
  fold (after_credit tools s) in Ho4, Hcr, He4.
  intros [Herr|Herr Hf|Herr Hf1 Hf|Herr Hf1 Hf2 Hf|final' Herr Hf1 Hf2 Hf3 Hp]
    Hstatus.
  - destruct (error_handler_node_state (parse_order s))
      as (_ & Ha & He & _ & _ & _ & _ & _ & Hm & _).
    rewrite He, Ha, Hm, Ho1. now repeat split.
  - destruct (error_handler_node_state (after_customer tools s))
      as (_ & Ha & He & _ & _ & _ & _ & _ & Hm & _).
    rewrite He, Ha, Hm, Ho2, Ho1. repeat split.
    rewrite Hc in Hf. injection Hf as ->. rewrite He2.
    intros H. now apply app_eq_nil in H as [_ H].
  - destruct (error_handler_node_state (after_items tools s))
      as (_ & Ha & He & _ & _ & _ & _ & _ & Hm & _).
    rewrite He, Ha, Hm, Ho3, Ho2, Ho1. repeat split.
    rewrite Hi in Hf. injection Hf as ->. now apply He3.
  - destruct (error_handler_node_state (after_credit tools s))
      as (_ & Ha & He & _ & _ & _ & _ & _ & Hm & _).
    rewrite He, Ha, Hm, Ho4, Ho3, Ho2, Ho1. repeat split.
    rewrite Hcr in Hf. injection Hf as ->. now apply He4.
  - destruct (process_order_node_state _ _ Hp) as (Hs & _).
    rewrite Hs in Hstatus. discriminate.
Qed.

(** ** Properties of the workflow *)

(** C1: an order with an empty order id, an empty customer id or no items
    leaves the parse step with status "error" and leaves [validate_order],
    whatever the tools, rejected: status "rejected", not approved, with at
    least one error. *)
Theorem C1_structural_failure_is_rejected
    (tools : Tools) (order_id customer_id : string) (items : list OrderLine) :
  order_id = "" \/ customer_id = "" \/ items = [] ->
  st_status (parse_order (initial_state order_id customer_id items)) = "error"
  /\ fr_status (validate_order_with tools order_id customer_id items)
     = "rejected"
  /\ fr_approved (validate_order_with tools order_id customer_id items) = false
  /\ fr_errors (validate_order_with tools order_id customer_id items) <> [].
Proof.
  intros Hbad.
  destruct (parse_order_state (initial_state order_id customer_id items))
    as (_ & _ & _ & _ & _ & _ & _ & _ & Hst & Herrs).
  cbn [initial_state st_order_id st_customer_id st_items] in Herrs.
  assert (Hne : st_errors (parse_order (initial_state order_id customer_id items))
                <> []).
  { intros H. apply Herrs in H as (H1 & H2 & H3). tauto. }
  split.
  - rewrite Hst.
    destruct (st_errors (parse_order (initial_state order_id customer_id items)));
      [congruence|reflexivity].
  - destruct (app_invoke_outcome tools (initial_state order_id customer_id items))
      as (final & Hrun & Hout).
    unfold validate_order_with, validate_order_on. rewrite Hrun.
    cbn [fr_status fr_approved fr_errors].
    destruct Hout; try congruence.
    destruct (error_handler_node_state
                (parse_order (initial_state order_id customer_id items)))
      as (Hs & Ha & He & _).
    rewrite Hs, Ha, He. now repeat split.
Qed.

Lemma C1_structural_failure_is_rejected_witness :
  fr_status
    (validate_order "" "CUST001"
       [mkOrderLine (Some "PROD001") (Some 1%Z) (Some 1200.0)]) = "rejected"
  /\ fr_status (validate_order "ORD-TEST-007" "CUST001" []) = "rejected".
Proof.
  split.
  - apply (C1_structural_failure_is_rejected validation_tools "" "CUST001"
             [mkOrderLine (Some "PROD001") (Some 1%Z) (Some 1200.0)]).
    left. reflexivity.
  - apply (C1_structural_failure_is_rejected validation_tools "ORD-TEST-007"
             "CUST001" []).
    right. right. reflexivity.
Defined.

(** C7: when the run of the graph raises, [validate_order] returns the
    result with status "error", not approved, total 0, empty details and
    the one message that embeds the failure as its only error; when the run
    returns, the result is read off the final state. Either way the caller
    gets a result; and the graph of the repository returns on every input. *)
Theorem C7_failure_becomes_error_result
    (invoke : OrderState -> PyResult OrderState)
    (order_id customer_id : string) (items : list OrderLine) :
  (forall e,
     invoke (initial_state order_id customer_id items) = Raised e ->
     validate_order_on invoke order_id customer_id items
       = mkFinalResult "error" false
           ("Error crítico en validación de orden " ++ order_id ++ ": " ++ e)
           0.0
           ["Error crítico en validación de orden " ++ order_id ++ ": " ++ e]
           [] EmptyDetails)
  /\ (forall final,
        invoke (initial_state order_id customer_id items) = Returned final ->
        validate_order_on invoke order_id customer_id items
          = mkFinalResult (st_status final) (st_approved final)
              (st_message final) (st_total_amount final) (st_errors final)
              (st_warnings final) (st_validation_details final))
  /\ (forall tools,
        exists final,
          app_invoke tools (initial_state order_id customer_id items)
            = Returned final).
Proof.
  split; [|split].
  - intros e He. unfold validate_order_on. now rewrite He.
  - intros final Hf. unfold validate_order_on. now rewrite Hf.
  - intros tools.
    destruct (app_invoke_outcome tools (initial_state order_id customer_id items))
      as (final & Hrun & _).
    now exists final.
Qed.

Lemma C7_failure_becomes_error_result_witness :
  validate_order_on (run validation_tools recursion_limit N_process_order)
    "ORD-1" "CUST001" []
  = mkFinalResult "error" false
      "Error crítico en validación de orden ORD-1: 'NoneType' object has no attribute 'get'"
      0.0
      ["Error crítico en validación de orden ORD-1: 'NoneType' object has no attribute 'get'"]
      [] EmptyDetails.
Proof.
  apply (C7_failure_becomes_error_result
           (run validation_tools recursion_limit N_process_order)
           "ORD-1" "CUST001" []).
  reflexivity.
Defined.

(** C10: a result with status "rejected" has at least one error, whatever
    the tools return or raise; its message reports that count; and the
    reject handler leaves the errors as they are. *)
Theorem C10_rejected_result_has_errors
    (tools : Tools) (order_id customer_id : string) (items : list OrderLine) :
  fr_status (validate_order_with tools order_id customer_id items)
    = "rejected" ->
  fr_errors (validate_order_with tools order_id customer_id items) <> []
  /\ (1 <= length
             (fr_errors (validate_order_with tools order_id customer_id items)))%nat
  /\ fr_message (validate_order_with tools order_id customer_id items)
     = "Orden " ++ order_id ++ " rechazada. "
         ++ str_int
              (Z.of_nat
                 (length
                    (fr_errors
                       (validate_order_with tools order_id customer_id items))))
         ++ " error(es) encontrado(s)."
  /\ forall s, st_errors (error_handler_node s) = st_errors s.
Proof.
  destruct (app_invoke_outcome tools (initial_state order_id customer_id items))
    as (final & Hrun & Hout).
  unfold validate_order_with, validate_order_on. rewrite Hrun.
  cbn [fr_status fr_errors fr_message]. intros Hstatus.
  destruct (outcome_rejected_errors tools _ final Hout Hstatus)
    as (Hne & _ & Hmsg).
  cbn [initial_state st_order_id] in Hmsg.
  split; [exact Hne|]. split; [|split; [exact Hmsg|]].
  - destruct (st_errors final); [congruence|cbn; lia].
  - intros s. apply error_handler_node_state.
Qed.

Lemma C10_rejected_result_has_errors_witness :
  fr_errors
    (validate_order "ORD-TEST-004" "CUST002"
       [mkOrderLine (Some "PROD001") (Some 5%Z) (Some 1200.0)]) <> [].
Proof.
  apply (C10_rejected_result_has_errors validation_tools "ORD-TEST-004"
           "CUST002" [mkOrderLine (Some "PROD001") (Some 5%Z) (Some 1200.0)]).
  vm_compute. reflexivity.
Defined.

(** A tool that raises inside its node: the order is rejected with the one
    error of the [except] branch. *)
Example customer_tool_raises :
  let tools :=
    mkTools (fun _ => Raised "catalog unavailable")
      (invoke_validate_order_items validation_tools)
      (invoke_check_customer_credit validation_tools) in
  let result :=
    validate_order_with tools "ORD-9" "CUST001"
      [mkOrderLine (Some "PROD001") (Some 1%Z) None] in
  fr_status result = "rejected"
  /\ fr_errors result = ["Error al validar cliente: catalog unavailable"]
  /\ fr_message result = "Orden ORD-9 rechazada. 1 error(es) encontrado(s).".
Proof. vm_compute. repeat split. Qed.

(** One step of [run_trace] at a node other than [N_END]. *)
Lemma run_trace_step (tools : Tools) (fuel : nat) (n : Node) (s : OrderState) :
  n <> N_END ->
  run_trace tools (S fuel) n s =
    match node_function tools n s with
    | Raised _ => [n]
    | Returned s' =>
        match next_node n s' with
        | Raised _ => [n]
        | Returned n' => n :: run_trace tools fuel n' s'
        end
    end.
Proof. destruct n; intros H; [reflexivity..|now destruct H]. Qed.

Lemma parse_order_validating (s : OrderState) :
  st_errors (parse_order s) = [] ->
  String.eqb (st_status (parse_order s)) "validating" = true.
Proof.
  intros Herr.
  destruct (parse_order_state s) as (_ & _ & _ & _ & _ & _ & _ & _ & Hst & _).
  rewrite Hst, Herr. reflexivity.
Qed.

(** The verdict keys after each node, with the tools of the repository. *)
Lemma after_customer_real (s : OrderState) :
  st_customer_validation (after_customer validation_tools s)
    = Verdict (validate_customer_exists (st_customer_id s)).
Proof.
  destruct (parse_order_state s) as (_ & Hc & _).
  unfold after_customer, validate_customer_node.
  cbn [validation_tools invoke_validate_customer_exists]. rewrite Hc.
  destruct (cv_valid (validate_customer_exists (st_customer_id s)));
    cbn [negb]; state_simpl; reflexivity.
Qed.

Lemma after_items_real (s : OrderState) :
  st_items_validation (after_items validation_tools s)
    = Verdict (validate_order_items (st_items s))
  /\ st_total_amount (after_items validation_tools s)
     = iv_total_amount (validate_order_items (st_items s)).
Proof.
  destruct (parse_order_state s) as (_ & _ & Hi & _).
  destruct (validate_customer_node_state validation_tools (parse_order s))
    as (_ & _ & Hi2 & _).
  fold (after_customer validation_tools s) in Hi2.
  unfold after_items, validate_items_node.
  cbn [validation_tools invoke_validate_order_items]. rewrite Hi2, Hi.
  destruct (iv_valid (validate_order_items (st_items s)));
    cbn [negb]; cbv zeta; rewrite ?fold_append_error; state_simpl;
    now split.
Qed.

Lemma after_credit_real (s : OrderState) :
  st_credit_validation (after_credit validation_tools s)
    = Verdict
        (check_customer_credit (st_customer_id s)
           (iv_total_amount (validate_order_items (st_items s)))).
Proof.
  destruct (parse_order_state s) as (_ & Hc & _).
  destruct (validate_customer_node_state validation_tools (parse_order s))
    as (_ & Hc2 & _).
  destruct (validate_items_node_state validation_tools
              (after_customer validation_tools s)) as (_ & Hc3 & _).
  destruct (after_items_real s) as (_ & Ht).
  fold (after_customer validation_tools s) in Hc2.
  fold (after_items validation_tools s) in Hc3.
  unfold after_credit, check_credit_node.
  cbn [validation_tools invoke_check_customer_credit].
  rewrite Hc3, Hc2, Hc, Ht.
  destruct (cr_has_credit _); cbn [negb]; state_simpl; reflexivity.
Qed.

(** The key of an earlier node is still in the final state of a run. *)
Lemma outcome_keeps_customer (tools : Tools) (s final : OrderState) :
  Outcome tools s final ->
  st_errors (parse_order s) = [] ->
  st_customer_validation final
    = st_customer_validation (after_customer tools s).
Proof.
  destruct (validate_items_node_state tools (after_customer tools s))
    as (_ & _ & _ & Hk3 & _).
  destruct (check_credit_node_state tools (after_items tools s))
    as (_ & _ & _ & Hk4 & _).
  fold (after_items tools s) in Hk3. fold (after_credit tools s) in Hk4.
  intros [Herr|Herr Hf|Herr Hf1 Hf|Herr Hf1 Hf2 Hf|final' Herr Hf1 Hf2 Hf3 Hp]
    Hok; try congruence.
  - apply error_handler_node_state.
  - destruct (error_handler_node_state (after_items tools s))
      as (_ & _ & _ & _ & _ & Hk & _). congruence.
  - destruct (error_handler_node_state (after_credit tools s))
      as (_ & _ & _ & _ & _ & Hk & _). congruence.
  - destruct (process_order_node_state _ _ Hp) as (_ & _ & _ & _ & Hk & _).
    congruence.
Qed.

Lemma outcome_keeps_items (tools : Tools) (s final : OrderState) :
  Outcome tools s final ->
  slot_flag cv_valid (st_customer_validation (after_customer tools s))
    = Returned true ->
  st_errors (parse_order s) = [] ->
  st_items_validation final = st_items_validation (after_items tools s).
Proof.
  destruct (check_credit_node_state tools (after_items tools s))
    as (_ & _ & _ & _ & Hk4 & _).
  fold (after_credit tools s) in Hk4.
  intros [Herr|Herr Hf|Herr Hf1 Hf|Herr Hf1 Hf2 Hf|final' Herr Hf1 Hf2 Hf3 Hp]
    Hvalid Hok; try congruence.
  - apply error_handler_node_state.
  - destruct (error_handler_node_state (after_credit tools s))
      as (_ & _ & _ & _ & _ & _ & Hk & _). congruence.
  - destruct (process_order_node_state _ _ Hp)
      as (_ & _ & _ & _ & _ & Hk & _). congruence.
Qed.

(** Catalog prices are positive, so a passing line adds a positive amount. *)
Lemma product_price_positive (pid : option string) (product : Product) :
  get_product pid = Some product -> 0 < p_price product.
Proof.
  destruct pid as [k|]; [|discriminate]. unfold get_product, MOCK_PRODUCTS.
  cbn [dict_get].
  repeat (destruct (String.eqb _ k);
          [intros H; injection H as <-; reflexivity|]).
  discriminate.
Qed.

Lemma passing_line_total_positive (item : OrderLine) :
  line_passes item = true -> 0 < line_total item.
Proof.
  intros Hp. apply line_passes_iff in Hp.
  destruct (passing_line_has_product item Hp) as [product Hprod].
  rewrite first_failing_rule_cases in Hp.
  destruct (rule_holds R_product_exists item); [|discriminate].
  destruct (rule_holds R_quantity_positive item) eqn:Hq; [|discriminate].
  cbn [rule_holds] in Hq. apply Z.ltb_lt in Hq.
  unfold line_total, catalog_price. rewrite Hprod.
  apply Qmult_lt_0_compat.
  - exact (product_price_positive _ _ Hprod).
  - unfold Qlt. cbn. lia.
Qed.

Lemma sum_passing_nonnegative (items : list OrderLine) :
  0 <= sum_Q (map line_total (filter line_passes items)).
Proof.
  induction items as [|item items IH]; cbn [filter]; [apply Qle_refl|].
  destruct (line_passes item) eqn:Hp; [|exact IH].
  cbn [map]. unfold sum_Q in *. cbn [fold_right].
  pose proof (passing_line_total_positive item Hp) as Hpos.
  apply Qlt_le_weak in Hpos.
  replace 0 with (0 + 0) by reflexivity. now apply Qplus_le_compat.
Qed.

Lemma sum_passing_positive (items : list OrderLine) :
  flat_map accepted_line items <> [] ->
  0 < sum_Q (map line_total (filter line_passes items)).
Proof.
  induction items as [|item items IH]; cbn [flat_map filter]; [congruence|].
  intros Hne. destruct (line_passes item) eqn:Hp.
  - cbn [map]. unfold sum_Q. cbn [fold_right].
    pose proof (passing_line_total_positive item Hp) as Hpos.
    pose proof (sum_passing_nonnegative items) as Hrest. unfold sum_Q in Hrest.
    replace 0 with (0 + 0) by reflexivity.
    now apply Qplus_lt_le_compat.
  - apply IH. intros Hnil. apply Hne. rewrite Hnil, app_nil_r.
    unfold accepted_line. destruct (first_failing_rule item) eqn:Hr;
      [reflexivity|].
    apply line_passes_iff in Hr. congruence.
Qed.

(** C2: a run whose final state holds a negative customer verdict visited
    parse, customer check and reject handling only: the items and credit
    keys are still unset and are rendered so in the details, the only error
    is the message of the customer verdict, the total is 0, and the run is
    the same with any other items and credit tools. *)
Theorem C2_invalid_customer_short_circuits
    (tools : Tools) (order_id customer_id : string) (items : list OrderLine)
    (final : OrderState) :
  app_invoke tools (initial_state order_id customer_id items)
    = Returned final ->
  customer_invalid (st_customer_validation final) ->
  st_items_validation final = Unset
  /\ st_credit_validation final = Unset
  /\ st_status final = "rejected"
  /\ st_total_amount final = 0.0
  /\ st_errors final = [customer_message (st_customer_validation final)]
  /\ st_validation_details final
     = RejectedDetails (st_customer_validation final) Unset Unset
         [customer_message (st_customer_validation final)] []
         (mkSummary order_id customer_id 0.0 None false (Some 1%nat))
  /\ run_trace tools recursion_limit N_parse_order
       (initial_state order_id customer_id items)
     = [N_parse_order; N_validate_customer; N_error_handler]
  /\ forall tools',
       invoke_validate_customer_exists tools' customer_id
         = invoke_validate_customer_exists tools customer_id ->
       app_invoke tools' (initial_state order_id customer_id items)
         = Returned final.
Proof.
  set (s := initial_state order_id customer_id items).
  intros Hrun Hinv.
  destruct (app_invoke_outcome tools s) as (final' & Hrun' & Hout).
  rewrite Hrun in Hrun'. injection Hrun' as <-.
  destruct (parse_order_state s)
    as (Ho1 & Hc1 & _ & Hk1 & Hi1 & Hr1 & Ht1 & Hw1 & _ & _).
  destruct (validate_customer_node_state tools (parse_order s))
    as (Ho2 & Hc2 & _ & Hi2 & Hr2 & Ht2 & Hw2 & valid & Hflag & He2 & _).
  fold (after_customer tools s) in Ho2, Hc2, Hi2, Hr2, Ht2, Hw2, Hflag, He2.
  assert (Hrejected :
    st_errors (parse_order s) = []
    /\ slot_flag cv_valid (st_customer_validation (after_customer tools s))
       = Returned false
    /\ final = error_handler_node (after_customer tools s)).
  { destruct Hout as
      [Herr|Herr Hf|Herr Hf1 Hf|Herr Hf1 Hf2 Hf|final' Herr Hf1 Hf2 Hf3 Hp].
    - exfalso.
      destruct (error_handler_node_state (parse_order s))
        as (_ & _ & _ & _ & _ & Hk & _).
      rewrite Hk, Hk1 in Hinv. exact Hinv.
    - now repeat split.
    - exfalso. apply customer_invalid_iff in Hinv.
      rewrite (outcome_keeps_customer tools s _
                 (rejected_at_items tools s Herr Hf1 Hf) Herr) in Hinv.
      congruence.
    - exfalso. apply customer_invalid_iff in Hinv.
      rewrite (outcome_keeps_customer tools s _
                 (rejected_at_credit tools s Herr Hf1 Hf2 Hf) Herr) in Hinv.
      congruence.
    - exfalso. apply customer_invalid_iff in Hinv.
      rewrite (outcome_keeps_customer tools s _
                 (approved_after_credit tools s final' Herr Hf1 Hf2 Hf3 Hp)
                 Herr) in Hinv.
      congruence. }
  destruct Hrejected as (Herr & Hf & ->).
  rewrite Hflag in Hf. injection Hf as ->. rewrite Herr in He2.
  cbn [app] in He2.
  destruct (error_handler_node_state (after_customer tools s))
    as (Hs & _ & He & Hw & Ht & Hk & Hi & Hr & _ & Hd).
  rewrite ?Hd, ?Hs, ?He, ?Hw, ?Ht, ?Hk, ?Hi, ?Hr, ?He2, ?Hw2, ?Hw1, ?Hi2,
    ?Hi1, ?Hr2, ?Hr1, ?Ht2, ?Ht1, ?Ho2, ?Ho1, ?Hc2, ?Hc1.
  subst s. state_simpl. cbn [length].
  repeat (split; [reflexivity|]). split.
  - unfold recursion_limit.
    rewrite run_trace_step by discriminate. cbn [node_function next_node].
    unfold after_parse_order. rewrite (parse_order_validating _ Herr).
    rewrite run_trace_step by discriminate. cbn [node_function next_node].
    unfold should_continue_after_customer.
    fold (after_customer tools (initial_state order_id customer_id items)).
    rewrite Hflag.
    rewrite run_trace_step by discriminate. reflexivity.
  - intros tools' Hsame. rewrite app_invoke_paths. cbv zeta.
    rewrite (parse_order_validating _ Herr).
    assert (Hnode :
      validate_customer_node tools'
        (parse_order (initial_state order_id customer_id items))
      = after_customer tools (initial_state order_id customer_id items)).
    { unfold after_customer, validate_customer_node.
      rewrite Hc1. state_simpl. now rewrite Hsame. }
    rewrite Hnode, Hflag. reflexivity.
Qed.

Lemma C2_invalid_customer_short_circuits_witness :
  let final :=
    error_handler_node
      (after_customer validation_tools
         (initial_state "ORD-003" "CUST003"
            [mkOrderLine (Some "PROD004") (Some 2%Z) (Some 350.0)])) in
  st_items_validation final = Unset
  /\ st_credit_validation final = Unset
  /\ st_errors final = ["Cliente CUST003 existe pero está inactivo"].
Proof.
  intros final.
  destruct (C2_invalid_customer_short_circuits validation_tools "ORD-003"
              "CUST003"
              [mkOrderLine (Some "PROD004") (Some 2%Z) (Some 350.0)] final)
    as (Hi & Hc & _ & _ & He & _).
  - vm_compute. reflexivity.
  - vm_compute. reflexivity.
  - rewrite Hi, Hc, He. repeat split.
Defined.

(** C9: a run of [validate_order] whose items verdict is invalid with at
    least one validated line is rejected, and its result carries the total
    of the verdict: the sum of catalog price times quantity over the lines
    that passed, which is greater than 0. *)
Theorem C9_rejected_items_keep_partial_total
    (order_id customer_id : string) (items : list OrderLine)
    (final : OrderState) (v : ItemsVerdict) :
  app_invoke validation_tools (initial_state order_id customer_id items)
    = Returned final ->
  st_items_validation final = Verdict v ->
  iv_valid v = false ->
  iv_validated_items v <> [] ->
  v = validate_order_items items
  /\ fr_status (validate_order order_id customer_id items) = "rejected"
  /\ fr_total_amount (validate_order order_id customer_id items)
     = iv_total_amount v
  /\ fr_total_amount (validate_order order_id customer_id items)
     == sum_Q (map line_total (filter line_passes items))
  /\ 0 < fr_total_amount (validate_order order_id customer_id items).
Proof.
  set (s := initial_state order_id customer_id items).
  intros Hrun Hslot Hinvalid Hsome.
  unfold validate_order, validate_order_with, validate_order_on.
  fold s. rewrite Hrun. cbn [fr_status fr_total_amount].
  destruct (app_invoke_outcome validation_tools s) as (final' & Hrun' & Hout).
  rewrite Hrun in Hrun'. injection Hrun' as <-.
  destruct (parse_order_state s) as (_ & _ & _ & _ & Hi1 & _).
  destruct (validate_customer_node_state validation_tools (parse_order s))
    as (_ & _ & _ & Hi2 & _).
  fold (after_customer validation_tools s) in Hi2.
  destruct (after_items_real s) as (Hi3 & Ht3).
  assert (Hrejected :
    final = error_handler_node (after_items validation_tools s)).
  { destruct Hout as
      [Herr|Herr Hf|Herr Hf1 Hf|Herr Hf1 Hf2 Hf|final' Herr Hf1 Hf2 Hf3 Hp].
    - exfalso.
      destruct (error_handler_node_state (parse_order s))
        as (_ & _ & _ & _ & _ & _ & Hk & _).
      rewrite Hk, Hi1 in Hslot. discriminate.
    - exfalso.
      destruct (error_handler_node_state (after_customer validation_tools s))
        as (_ & _ & _ & _ & _ & _ & Hk & _).
      rewrite Hk, Hi2, Hi1 in Hslot. discriminate.
    - reflexivity.
    - exfalso.
      rewrite (outcome_keeps_items validation_tools s _
                 (rejected_at_credit validation_tools s Herr Hf1 Hf2 Hf)
                 Hf1 Herr) in Hslot.
      rewrite Hslot in Hf2. cbn [slot_flag] in Hf2. congruence.
    - exfalso.
      rewrite (outcome_keeps_items validation_tools s _
                 (approved_after_credit validation_tools s final' Herr Hf1 Hf2
                    Hf3 Hp) Hf1 Herr) in Hslot.
      rewrite Hslot in Hf2. cbn [slot_flag] in Hf2. congruence. }
  subst final.
  destruct (error_handler_node_state (after_items validation_tools s))
    as (Hs & _ & _ & _ & Ht & _ & Hk & _).
  rewrite Hk, Hi3 in Hslot. injection Hslot as <-.
  rewrite Hs, Ht, Ht3. subst s. state_simpl.
  split; [reflexivity|]. split; [reflexivity|]. split; [reflexivity|].
  split; [apply validate_order_items_total|].
  rewrite validate_order_items_total. apply sum_passing_positive.
  now destruct (validate_order_items_lines items) as [<- _].
Qed.

Lemma C9_rejected_items_keep_partial_total_witness :
  fr_status
    (validate_order "ORD-004" "CUST001"
       [mkOrderLine (Some "PROD005") (Some 10%Z) (Some 120.0);
        mkOrderLine (Some "PROD001") (Some 1%Z) (Some 1200.0)]) = "rejected"
  /\ fr_total_amount
       (validate_order "ORD-004" "CUST001"
          [mkOrderLine (Some "PROD005") (Some 10%Z) (Some 120.0);
           mkOrderLine (Some "PROD001") (Some 1%Z) (Some 1200.0)]) == 1200.0.
Proof.
  destruct (C9_rejected_items_keep_partial_total "ORD-004" "CUST001"
              [mkOrderLine (Some "PROD005") (Some 10%Z) (Some 120.0);
               mkOrderLine (Some "PROD001") (Some 1%Z) (Some 1200.0)]
              (error_handler_node
                 (after_items validation_tools
                    (initial_state "ORD-004" "CUST001"
                       [mkOrderLine (Some "PROD005") (Some 10%Z) (Some 120.0);
                        mkOrderLine (Some "PROD001") (Some 1%Z)
                          (Some 1200.0)])))
              (validate_order_items
                 [mkOrderLine (Some "PROD005") (Some 10%Z) (Some 120.0);
                  mkOrderLine (Some "PROD001") (Some 1%Z) (Some 1200.0)]))
    as (_ & Hs & _ & Hsum & _).
  - vm_compute. reflexivity.
  - vm_compute. reflexivity.
  - vm_compute. reflexivity.
  - vm_compute. discriminate.
  - split; [exact Hs|]. rewrite Hsum. vm_compute. reflexivity.
Defined.

(** C8: when every line passes on its own the verdict is valid, though the
    lines together ask for more of a product than its stock; with a valid
    customer and enough credit the order is approved. *)
Theorem C8_stock_checked_line_by_line
    (order_id customer_id : string) (items : list OrderLine)
    (pid : string) (product : Product) :
  items <> [] ->
  (forall item, In item items -> line_passes item = true) ->
  get_product (Some pid) = Some product ->
  (p_stock product < requested_quantity pid items)%Z ->
  iv_valid (validate_order_items items) = true
  /\ iv_invalid_items (validate_order_items items) = []
  /\ length (iv_validated_items (validate_order_items items)) = length items
  /\ (order_id <> "" ->
      cv_valid (validate_customer_exists customer_id) = true ->
      cr_has_credit
        (check_customer_credit customer_id
           (iv_total_amount (validate_order_items items))) = true ->
      fr_status (validate_order order_id customer_id items) = "approved"
      /\ fr_approved (validate_order order_id customer_id items) = true).
Proof.
  intros Hne Hall _ _. apply all_pass_forallb in Hall.
  destruct (flat_map_accepted_all items Hall) as [Hrej Hacc].
  destruct (validate_order_items_lines items) as [Hv Hi].
  assert (Hvalid : iv_valid (validate_order_items items) = true).
  { rewrite validate_order_items_valid, Hv, Hi, Hrej, Hacc.
    destruct items; [congruence|reflexivity]. }
  split; [exact Hvalid|]. split; [now rewrite Hi|].
  split; [now rewrite Hv|].
  intros Hoid Hcust Hcredit.
  set (s := initial_state order_id customer_id items).
  assert (Hcid : customer_id <> "").
  { intros ->. discriminate Hcust. }
  destruct (parse_order_state s) as (_ & _ & _ & _ & _ & _ & _ & _ & _ & Herrs).
  assert (Hok : st_errors (parse_order s) = []).
  { apply Herrs. subst s. state_simpl. now repeat split. }
  pose proof (after_customer_real s) as Hk2.
  destruct (after_items_real s) as (Hk3 & _).
  pose proof (after_credit_real s) as Hk4.
  subst s. state_simpl.
  set (s := initial_state order_id customer_id items) in *.
  destruct (app_invoke_outcome validation_tools s) as (final & Hrun & Hout).
  unfold validate_order, validate_order_with, validate_order_on.
  fold s. rewrite Hrun. cbn [fr_status fr_approved].
  destruct Hout as
    [Herr|Herr Hf|Herr Hf1 Hf|Herr Hf1 Hf2 Hf|final' Herr Hf1 Hf2 Hf3 Hp].
  - congruence.
  - rewrite Hk2 in Hf. cbn [slot_flag] in Hf. congruence.
  - rewrite Hk3 in Hf. cbn [slot_flag] in Hf. congruence.
  - rewrite Hk4 in Hf. cbn [slot_flag] in Hf. congruence.
  - destruct (process_order_node_state _ _ Hp) as (Hs & Ha & _).
    now split.
Qed.

Lemma C8_stock_checked_line_by_line_witness :
  requested_quantity "PROD002"
    [mkOrderLine (Some "PROD002") (Some 150%Z) (Some 25.0);
     mkOrderLine (Some "PROD002") (Some 150%Z) (Some 25.0)] = 300%Z
  /\ iv_valid
       (validate_order_items
          [mkOrderLine (Some "PROD002") (Some 150%Z) (Some 25.0);
           mkOrderLine (Some "PROD002") (Some 150%Z) (Some 25.0)]) = true
  /\ fr_status
       (validate_order "ORD-X" "CUST001"
          [mkOrderLine (Some "PROD002") (Some 150%Z) (Some 25.0);
           mkOrderLine (Some "PROD002") (Some 150%Z) (Some 25.0)])
     = "approved".
Proof.
  destruct (C8_stock_checked_line_by_line "ORD-X" "CUST001"
              [mkOrderLine (Some "PROD002") (Some 150%Z) (Some 25.0);
               mkOrderLine (Some "PROD002") (Some 150%Z) (Some 25.0)]
              "PROD002"
              (mkProduct "PROD002" "Wireless Mouse" 25.0 200 "accessories"))
    as (Hvalid & _ & _ & Happroved).
  - discriminate.
  - intros item [<-|[<-|[]]]; vm_compute; reflexivity.
  - reflexivity.
  - vm_compute. reflexivity.
  - split; [reflexivity|]. split; [exact Hvalid|].
    apply Happroved; [discriminate|reflexivity|vm_compute; reflexivity].
Defined.

(** ** Values computed on the catalog *)

Example format_2f_examples :
  (format_2f 2525.0, format_2f 0.0, format_2f (1 # 3), format_2f (-(5 # 1000)),
   format_2f 0.125, format_2f 5000.01)
  = ("2525.00", "0.00", "0.33", "-0.00", "0.12", "5000.01").
Proof. reflexivity. Qed.

Example validate_order_items_two_lines :
  let r := validate_order_items
             [mkOrderLine (Some "PROD001") (Some 2%Z) (Some 1200.0);
              mkOrderLine (Some "PROD002") (Some 5%Z) (Some 25.0)] in
  iv_valid r = true /\ iv_total_amount r == 2525.0
  /\ iv_message r = "Todos los 2 items son válidos. Total: $2525.00".
Proof. vm_compute. repeat split. Qed.

(** The approved order of the test suite. *)
Example order_approved :
  let result :=
    validate_order "ORD-001" "CUST001"
      [mkOrderLine (Some "PROD001") (Some 2%Z) (Some 1200.0);
       mkOrderLine (Some "PROD002") (Some 5%Z) (Some 25.0)] in
  fr_status result = "approved" /\ fr_approved result = true
  /\ fr_total_amount result == 2525.0 /\ fr_errors result = []
  /\ fr_message result
     = "Orden ORD-001 aprobada exitosamente. Total: $2525.00".
Proof. vm_compute. repeat split. Qed.

(** Insufficient credit: 500 available, 6000 required. *)
Example order_insufficient_credit :
  let result :=
    validate_order "ORD-002" "CUST002"
      [mkOrderLine (Some "PROD001") (Some 5%Z) (Some 1200.0)] in
  fr_status result = "rejected" /\ fr_total_amount result == 6000.0
  /\ fr_errors result
     = ["Crédito insuficiente. Disponible: $500.00, Requerido: $6000.00, Falta: $5500.00"].
Proof. vm_compute. repeat split. Qed.

(** Invalid items: the top-level message, then one error per invalid line. *)
Example order_invalid_items :
  fr_errors
    (validate_order "ORD-TEST-010" "CUST001"
       [mkOrderLine (Some "PROD999") (Some 1%Z) (Some 100.0);
        mkOrderLine (Some "PROD005") (Some 10%Z) (Some 120.0)])
  = ["Validación fallida: 2 items inválidos de 2 totales";
     "Item PROD999: Producto PROD999 no existe en el catálogo";
     "Item PROD005: Stock insuficiente. Solicitado: 10, Disponible: 0"].
Proof. vm_compute. reflexivity. Qed.

(** A run of the repository's graph takes at most five nodes. *)
Example trace_of_approved_order :
  run_trace validation_tools recursion_limit N_parse_order
    (initial_state "ORD-001" "CUST001"
       [mkOrderLine (Some "PROD001") (Some 2%Z) (Some 1200.0)])
  = [N_parse_order; N_validate_customer; N_validate_items; N_check_credit;
     N_process_order].
Proof. vm_compute. reflexivity. Qed.

(** ** Further properties of the tools *)

Lemma dict_get_In {V : Type} (d : dict V) (key : string) (v : V) :
  dict_get d key = Some v -> In (key, v) d.
Proof.
  induction d as [|[k w] d IH]; cbn [dict_get]; [discriminate|].
  destruct (String.eqb k key) eqn:Hk.
  - apply String.eqb_eq in Hk. intros H. injection H as <-. subst k.
    now left.
  - intros H. right. now apply IH.
Qed.

(** The customer verdict in terms of the catalog: the flags agree with each
    other, [customer_data] is the catalog entry, and the verdict is valid
    exactly for a customer that is in the catalog with status "active",
    that is for CUST001, CUST002, CUST004 and CUST005. *)
Theorem customer_verdict_reflects_catalog (customer_id : string) :
  let v := validate_customer_exists customer_id in
  cv_valid v = cv_exists v && cv_active v
  /\ cv_customer_data v = dict_get MOCK_CUSTOMERS customer_id
  /\ (cv_exists v = true
      <-> exists c, dict_get MOCK_CUSTOMERS customer_id = Some c)
  /\ (cv_valid v = true
      <-> exists c, dict_get MOCK_CUSTOMERS customer_id = Some c
                    /\ c_status c = "active")
  /\ (cv_valid v = true
      <-> In customer_id ["CUST001"; "CUST002"; "CUST004"; "CUST005"]).
Proof.
  cbv zeta.
  assert (Hcat : forall c,
            dict_get MOCK_CUSTOMERS customer_id = Some c ->
            (c_status c = "active"
             <-> In customer_id ["CUST001"; "CUST002"; "CUST004"; "CUST005"])).
  { intros c Hc. apply dict_get_In in Hc. unfold MOCK_CUSTOMERS in Hc.
    cbn [In] in Hc.
    destruct Hc as [H|[H|[H|[H|[H|[]]]]]]; injection H as <- <-;
      cbn [c_status]; split; intros H; try discriminate H;
      try reflexivity; cbn [In]; try tauto.
    destruct H as [H|[H|[H|[H|[]]]]]; discriminate H. }
  assert (Hin : In customer_id ["CUST001"; "CUST002"; "CUST004"; "CUST005"] ->
                exists c, dict_get MOCK_CUSTOMERS customer_id = Some c).
  { intros [<-|[<-|[<-|[<-|[]]]]]; eexists; reflexivity. }
  unfold validate_customer_exists.
  destruct customer_id as [|a rest]; cbn [str_falsy];
    [|destruct (dict_get MOCK_CUSTOMERS (String a rest)) as [c|] eqn:Hc;
      [specialize (Hcat c eq_refl);
       destruct (String.eqb (c_status c) "active") eqn:Hs;
       [apply String.eqb_eq in Hs|apply String.eqb_neq in Hs]|]];
    cbn [negb cv_valid cv_exists cv_active cv_customer_data andb];
    repeat match goal with
           | |- _ /\ _ => split
           | |- _ <-> _ => split
           end; intros;
    try reflexivity; try discriminate; try (now apply Hcat);
    try (now exists c);
    try match goal with
        | H : exists _, _ |- _ => destruct H as [c' H]
        end;
    try match goal with
        | H : _ /\ _ |- _ => destruct H as [H1 H2]
        end; try discriminate; try congruence;
    exfalso;
    match goal with
    | H : In _ _ |- _ =>
        first [ now apply Hcat in H
              | destruct (Hin H) as [c' Hc']; congruence
              | destruct (Hin H) as [c' Hc']; discriminate Hc' ]
    end.
Qed.

(** The catalog as [check_customer_credit] reads it: every customer owes at
    most the limit, so available credit is never negative. *)
Lemma catalog_balance_within_limit (customer_id : string) (c : Customer) :
  dict_get MOCK_CUSTOMERS customer_id = Some c ->
  c_id c = customer_id /\ 0 <= c_credit_limit c - c_current_balance c.
Proof.
  intros Hc. apply dict_get_In in Hc. unfold MOCK_CUSTOMERS in Hc.
  cbn [In] in Hc.
  destruct Hc as [H|[H|[H|[H|[H|[]]]]]]; injection H as <- <-;
    (split; [reflexivity|apply Qle_bool_iff; reflexivity]).
Qed.

(** Credit is granted exactly to a customer of the catalog whose limit minus
    balance covers the amount, whatever the customer's status; it is
    monotone in the amount; and an amount of 0 or less is covered for every
    customer of the catalog and for no one else. *)
Theorem credit_granted_iff (customer_id : string) (order_amount : Q) :
  (cr_has_credit (check_customer_credit customer_id order_amount) = true
   <-> exists c, dict_get MOCK_CUSTOMERS customer_id = Some c
                 /\ order_amount <= c_credit_limit c - c_current_balance c)
  /\ (forall smaller,
        smaller <= order_amount ->
        cr_has_credit (check_customer_credit customer_id order_amount) = true ->
        cr_has_credit (check_customer_credit customer_id smaller) = true)
  /\ (order_amount <= 0 ->
      (cr_has_credit (check_customer_credit customer_id order_amount) = true
       <-> exists c, dict_get MOCK_CUSTOMERS customer_id = Some c))
  /\ cr_required_amount (check_customer_credit customer_id order_amount)
     = order_amount.
Proof.
  assert (Hiff : forall amount,
    cr_has_credit (check_customer_credit customer_id amount) = true
    <-> exists c, dict_get MOCK_CUSTOMERS customer_id = Some c
                  /\ amount <= c_credit_limit c - c_current_balance c).
  { intros amount. unfold check_customer_credit.
    destruct (dict_get MOCK_CUSTOMERS customer_id) as [c|]; cbv zeta.
    - unfold Qge_bool.
      destruct (Qle_bool amount (c_credit_limit c - c_current_balance c))
        eqn:Hle; cbn [cr_has_credit].
      + apply Qle_bool_iff in Hle. split; [|reflexivity].
        intros _. now exists c.
      + split; [discriminate|]. intros [c' [H Hle']]. injection H as <-.
        apply Qle_bool_iff in Hle'. congruence.
    - cbn [cr_has_credit]. split; [discriminate|].
      intros [c [H _]]. discriminate. }
  split; [apply Hiff|]. split; [|split].
  - intros smaller Hsm H. apply Hiff in H as [c [Hc Hle]]. apply Hiff.
    exists c. split; [exact Hc|]. now apply Qle_trans with order_amount.
  - intros Hneg. rewrite Hiff. split.
    + intros [c [Hc _]]. now exists c.
    + intros [c Hc]. exists c. split; [exact Hc|].
      apply Qle_trans with 0; [exact Hneg|].
      now apply (catalog_balance_within_limit customer_id c).
  - unfold check_customer_credit.
    destruct (dict_get MOCK_CUSTOMERS customer_id) as [c|]; cbv zeta;
      [unfold Qge_bool; destruct (Qle_bool _ _)|]; reflexivity.
Qed.

Lemma credit_granted_iff_witness :
  cr_has_credit (check_customer_credit "CUST003" 100.0) = true
  /\ (cr_has_credit (check_customer_credit "CUST999" (-1)) = true
      <-> exists c, dict_get MOCK_CUSTOMERS "CUST999" = Some c).
Proof.
  split.
  - destruct (credit_granted_iff "CUST003" 15000.0) as (_ & Hmono & _).
    apply Hmono; [apply Qle_bool_iff; reflexivity|reflexivity].
  - destruct (credit_granted_iff "CUST999" (-1)) as (_ & _ & Hneg & _).
    apply Hneg. apply Qle_bool_iff. reflexivity.
Defined.

Lemma passing_line_rules (item : OrderLine) :
  first_failing_rule item = None ->
  exists product,
    get_product (ol_product_id item) = Some product
    /\ (0 < get_quantity item <= p_stock product)%Z
    /\ accepted_line item = [acceptance item product].
Proof.
  intros Hp. destruct (passing_line_has_product item Hp) as [product Hprod].
  exists product. split; [exact Hprod|].
  unfold accepted_line. rewrite Hp, Hprod. split; [|reflexivity].
  rewrite first_failing_rule_cases in Hp.
  destruct (rule_holds R_product_exists item); [|discriminate].
  destruct (rule_holds R_quantity_positive item) eqn:Hq; [|discriminate].
  destruct (rule_holds R_stock_available item) eqn:Hs; [|discriminate].
  cbn [rule_holds] in Hq, Hs. unfold catalog_stock in Hs.
  rewrite Hprod in Hs. apply Z.ltb_lt in Hq. apply Z.leb_le in Hs. lia.
Qed.

(** Every validated item comes from a line of the order whose product is in
    the catalog: it carries the catalog name, category and price (not the
    asserted price), a quantity between 1 and the stock, and price times
    quantity as its total. A product that is not in the catalog is never
    validated. *)
Theorem validated_items_come_from_catalog
    (items : list OrderLine) (v : ValidatedItem) :
  In v (iv_validated_items (validate_order_items items)) ->
  exists item product,
    In item items
    /\ get_product (ol_product_id item) = Some product
    /\ vi_product_id v = ol_product_id item
    /\ vi_product_name v = p_name product
    /\ vi_category v = p_category product
    /\ vi_unit_price v = p_price product
    /\ vi_quantity v = get_quantity item
    /\ (0 < vi_quantity v <= p_stock product)%Z
    /\ vi_item_total v = vi_unit_price v * inject_Z (vi_quantity v).
Proof.
  destruct (validate_order_items_lines items) as [-> _].
  intros Hin. apply in_flat_map in Hin as [item [Hitem Hv]].
  exists item. unfold accepted_line in Hv.
  destruct (first_failing_rule item) as [r|] eqn:Hr; [destruct Hv|].
  destruct (passing_line_rules item Hr) as (product & Hprod & Hq & _).
  rewrite Hprod in Hv. destruct Hv as [<-|[]].
  exists product. cbn [acceptance vi_product_id vi_product_name vi_category
                       vi_unit_price vi_quantity vi_item_total].
  now repeat split.
Qed.

Lemma validated_items_come_from_catalog_witness :
  exists item product,
    In item [mkOrderLine (Some "PROD002") (Some 5%Z) (Some 25.01)]
    /\ get_product (ol_product_id item) = Some product
    /\ p_price product = 25.0.
Proof.
  destruct (validated_items_come_from_catalog
              [mkOrderLine (Some "PROD002") (Some 5%Z) (Some 25.01)]
              (mkValidatedItem (Some "PROD002") "Wireless Mouse" 5 25.0
                 (25.0 * inject_Z 5) "accessories"))
    as (item & product & Hin & Hprod & _).
  - left. reflexivity.
  - exists item, product. split; [exact Hin|]. split; [exact Hprod|].
    destruct Hin as [<-|[]]. cbn in Hprod. injection Hprod as <-.
    reflexivity.
Defined.

Lemma item_totals_are_line_totals (items : list OrderLine) :
  map vi_item_total (flat_map accepted_line items)
    = map line_total (filter line_passes items).
Proof.
  induction items as [|item items IH]; cbn [flat_map filter map];
    [reflexivity|].
  rewrite map_app, IH. unfold accepted_line at 1.
  destruct (line_passes item) eqn:Hp.
  - apply line_passes_iff in Hp.
    destruct (passing_line_rules item Hp) as (product & Hprod & _ & _).
    rewrite Hp, Hprod. cbn [map app acceptance vi_item_total].
    unfold line_total, catalog_price. now rewrite Hprod.
  - destruct (first_failing_rule item) eqn:Hr; [reflexivity|].
    apply line_passes_iff in Hr. congruence.
Qed.

(** The total of a verdict is the sum of the totals of its validated items;
    it is never negative, and it is 0 exactly when nothing was validated. *)
Theorem total_is_sum_of_validated_items (items : list OrderLine) :
  iv_total_amount (validate_order_items items)
    == sum_Q (map vi_item_total
                (iv_validated_items (validate_order_items items)))
  /\ 0 <= iv_total_amount (validate_order_items items)
  /\ (iv_total_amount (validate_order_items items) == 0
      <-> iv_validated_items (validate_order_items items) = []).
Proof.
  destruct (validate_order_items_lines items) as [Hv _].
  rewrite Hv, item_totals_are_line_totals, validate_order_items_total.
  split; [reflexivity|]. split; [apply sum_passing_nonnegative|].
  split.
  - intros Hzero.
    destruct (flat_map accepted_line items) as [|v vs] eqn:Hacc;
      [reflexivity|].
    exfalso. assert (Hne : flat_map accepted_line items <> [])
      by (rewrite Hacc; discriminate).
    apply sum_passing_positive in Hne. rewrite Hzero in Hne.
    now apply Qlt_irrefl in Hne.
  - intros Hnil. rewrite <- item_totals_are_line_totals, Hnil. reflexivity.
Qed.

(** Validating two batches of lines one after the other gives the same
    sequences and total as validating each apart; when neither batch is
    empty the joint verdict is valid exactly when both are. *)
Theorem validate_order_items_app (first second : list OrderLine) :
  iv_validated_items (validate_order_items (first ++ second))
    = (iv_validated_items (validate_order_items first)
         ++ iv_validated_items (validate_order_items second))%list
  /\ iv_invalid_items (validate_order_items (first ++ second))
     = (iv_invalid_items (validate_order_items first)
          ++ iv_invalid_items (validate_order_items second))%list
  /\ iv_total_amount (validate_order_items (first ++ second))
     == iv_total_amount (validate_order_items first)
        + iv_total_amount (validate_order_items second)
  /\ (first <> [] -> second <> [] ->
      iv_valid (validate_order_items (first ++ second))
        = iv_valid (validate_order_items first)
          && iv_valid (validate_order_items second)).
Proof.
  destruct (validate_order_items_lines (first ++ second)) as [Hv Hi].
  destruct (validate_order_items_lines first) as [Hv1 Hi1].
  destruct (validate_order_items_lines second) as [Hv2 Hi2].
  assert (Hva : iv_validated_items (validate_order_items (first ++ second))
                = (iv_validated_items (validate_order_items first)
                     ++ iv_validated_items (validate_order_items second))%list)
    by (rewrite Hv, Hv1, Hv2; apply flat_map_app).
  assert (Hia : iv_invalid_items (validate_order_items (first ++ second))
                = (iv_invalid_items (validate_order_items first)
                     ++ iv_invalid_items (validate_order_items second))%list)
    by (rewrite Hi, Hi1, Hi2; apply flat_map_app).
  split; [exact Hva|]. split; [exact Hia|]. split.
  - rewrite !validate_order_items_total, filter_app, map_app.
    unfold sum_Q. rewrite fold_right_app.
    generalize (map line_total (filter line_passes second)).
    generalize (map line_total (filter line_passes first)).
    intros xs ys. induction xs as [|x xs IH]; cbn [fold_right].
    + ring.
    + rewrite IH. ring.
  - intros Hne1 Hne2. rewrite !validate_order_items_valid, Hva, Hia.
    rewrite !length_app.
    assert (Hl1 := lines_partition_length first).
    assert (Hl2 := lines_partition_length second).
    rewrite <- Hv1, <- Hi1 in Hl1. rewrite <- Hv2, <- Hi2 in Hl2.
    destruct first as [|f1 first']; [congruence|].
    destruct second as [|s1 second']; [congruence|].
    cbn [length] in Hl1, Hl2.
    destruct (length (iv_invalid_items (validate_order_items (f1 :: first'))))
      as [|n1],
      (length (iv_invalid_items (validate_order_items (s1 :: second'))))
      as [|n2],
      (length (iv_validated_items (validate_order_items (f1 :: first'))))
      as [|m1],
      (length (iv_validated_items (validate_order_items (s1 :: second'))))
      as [|m2]; cbn in *; try reflexivity; try lia.
Qed.

Lemma validate_order_items_app_witness :
  iv_valid
    (validate_order_items
       ([mkOrderLine (Some "PROD001") (Some 1%Z) None]
          ++ [mkOrderLine (Some "PROD999") (Some 1%Z) None]))
  = iv_valid (validate_order_items
                [mkOrderLine (Some "PROD001") (Some 1%Z) None])
    && iv_valid (validate_order_items
                   [mkOrderLine (Some "PROD999") (Some 1%Z) None]).
Proof.
  apply (validate_order_items_app
           [mkOrderLine (Some "PROD001") (Some 1%Z) None]
           [mkOrderLine (Some "PROD999") (Some 1%Z) None]);
    discriminate.
Defined.

(** A line without a product id, or without a quantity, is never validated
    and makes the whole verdict invalid; the recorded quantity of a line
    without one is the default 0. *)
Theorem line_with_missing_key_invalidates
    (items : list OrderLine) (item : OrderLine) :
  In item items ->
  ol_product_id item = None \/ ol_quantity item = None ->
  iv_valid (validate_order_items items) = false
  /\ (forall v, In v (iv_validated_items (validate_order_items items)) ->
                vi_product_id v <> None)
  /\ exists bad,
       In bad (iv_invalid_items (validate_order_items items))
       /\ ii_product_id bad = ol_product_id item
       /\ (ol_quantity item = None -> ii_quantity bad = 0%Z)
       /\ (ol_product_id item = None ->
           ii_reason bad = "Producto None no existe en el catálogo").
Proof.
  intros Hin Hmissing.
  assert (Hfail : exists r, first_failing_rule item = Some r
                            /\ (ol_product_id item = None ->
                                r = R_product_exists)).
  { rewrite first_failing_rule_cases. cbn [rule_holds]. unfold get_quantity.
    unfold get_product.
    destruct (ol_product_id item) as [pid|] eqn:Hpid.
    - destruct Hmissing as [H|Hq]; [discriminate|]. rewrite Hq.
      destruct (dict_get MOCK_PRODUCTS pid); cbn [negb Z.ltb Z.compare];
        eexists; (split; [reflexivity|discriminate]).
    - cbn [negb]. eexists. split; reflexivity. }
  destruct Hfail as (r & Hr & Hrule).
  destruct (validate_order_items_lines items) as [Hv Hi].
  assert (Hbad : In (rejection r item)
                   (iv_invalid_items (validate_order_items items))).
  { rewrite Hi. apply in_flat_map. exists item. split; [exact Hin|].
    unfold rejected_line. rewrite Hr. now left. }
  split; [|split].
  - rewrite validate_order_items_valid.
    destruct (iv_invalid_items (validate_order_items items));
      [destruct Hbad|reflexivity].
  - intros v Hvin.
    destruct (validated_items_come_from_catalog items v Hvin)
      as (item' & product & _ & Hprod & -> & _).
    intros Hnone. rewrite Hnone in Hprod. discriminate.
  - exists (rejection r item). split; [exact Hbad|].
    split; [destruct r; reflexivity|]. split.
    + intros Hq. unfold get_quantity. destruct r; cbn [rejection ii_quantity];
        unfold get_quantity; now rewrite Hq.
    + intros Hpid. rewrite (Hrule Hpid). cbn [rejection ii_reason].
      now rewrite Hpid.
Qed.

Lemma line_with_missing_key_invalidates_witness :
  iv_valid
    (validate_order_items
       [mkOrderLine (Some "PROD001") (Some 1%Z) None;
        mkOrderLine (Some "PROD002") None (Some 25.0)]) = false.
Proof.
  apply (line_with_missing_key_invalidates
           [mkOrderLine (Some "PROD001") (Some 1%Z) None;
            mkOrderLine (Some "PROD002") None (Some 25.0)]
           (mkOrderLine (Some "PROD002") None (Some 25.0))).
  - right. left. reflexivity.
  - right. reflexivity.
Defined.

(** ** Further properties of the workflow *)

(** [parse_order] reports one error per missing part, out of three fixed
    messages (the message for an empty list behind the [elif] never
    appears); it overwrites whatever status, errors, warnings, total,
    approval, message and details the state held; and running it twice
    changes nothing. *)
Theorem parse_order_resets_and_reports (s : OrderState) :
  (forall e, In e (st_errors (parse_order s)) ->
             In e ["ID de orden no proporcionado";
                   "ID de cliente no proporcionado";
                   "No se proporcionaron items en la orden"])
  /\ length (st_errors (parse_order s))
     = ((if str_falsy (st_order_id s) then 1 else 0)
        + (if str_falsy (st_customer_id s) then 1 else 0)
        + (if list_falsy (st_items s) then 1 else 0))%nat
  /\ ~ In "La lista de items está vacía" (st_errors (parse_order s))
  /\ parse_order (parse_order s) = parse_order s
  /\ (forall status errors warnings total approved message details,
        parse_order
          (mkOrderState (st_order_id s) (st_customer_id s) (st_items s)
             (st_customer_validation s) (st_items_validation s)
             (st_credit_validation s) status errors warnings total approved
             message details)
        = parse_order s).
Proof.
  destruct s as [o c items cv iv crv st errs warns total appr msg det].
  state_simpl.
  destruct o as [|a o], c as [|b c], items as [|item items];
    (split; [cbn; intros e H; tauto|]);
    (split; [reflexivity|]);
    (split; [cbn; intros H;
             repeat (destruct H as [H|H]; [discriminate H|]); exact H|]);
    split; reflexivity.
Qed.

(** What [process_order_node] returns, when it returns. *)
Lemma process_order_node_result (s s' : OrderState) :
  process_order_node s = Returned s' ->
  st_warnings s' = st_warnings s
  /\ st_order_id s' = st_order_id s
  /\ st_message s'
     = "Orden " ++ st_order_id s ++ " aprobada exitosamente. Total: $"
         ++ format_2f (st_total_amount s)
  /\ exists n,
       st_validation_details s'
         = ApprovedDetails (st_customer_validation s) (st_items_validation s)
             (st_credit_validation s)
             (mkSummary (st_order_id s) (st_customer_id s)
                (st_total_amount s) (Some n) true None)
       /\ forall v, st_items_validation s = Verdict v ->
                    n = length (iv_validated_items v).
Proof.
  unfold process_order_node. state_simpl.
  destruct (st_items_validation s) as [|v|msg] eqn:Hs; [discriminate| |];
    intros H; injection H as <-; state_simpl;
    repeat (split; [reflexivity|]).
  - exists (length (iv_validated_items v)).
    split; [reflexivity|]. intros v' H. now injection H as <-.
  - exists 0%nat. split; [reflexivity|discriminate].
Qed.

(** The errors, warnings and ids along the paths of a run. *)
Lemma outcome_frame (tools : Tools) (s final : OrderState) :
  Outcome tools s final ->
  st_warnings final = []
  /\ st_order_id final = st_order_id s
  /\ st_customer_id final = st_customer_id s
  /\ st_validation_details final <> EmptyDetails
  /\ (st_status final = "approved" /\ st_approved final = true
      /\ st_errors final = []
      \/ st_status final = "rejected" /\ st_approved final = false
         /\ st_errors final <> []).
Proof.
  destruct (parse_order_state s)
    as (Ho1 & Hc1 & _ & _ & _ & _ & _ & Hw1 & _ & _).
  destruct (validate_customer_node_state tools (parse_order s))
    as (Ho2 & Hc2 & _ & _ & _ & _ & Hw2 & valid & Hc & He2 & _).
  destruct (validate_items_node_state tools (after_customer tools s))
    as (Ho3 & Hc3 & _ & _ & _ & Hw3 & _ & ivalid & Hi & He3 & He3').
  destruct (check_credit_node_state tools (after_items tools s))
    as (Ho4 & Hc4 & _ & _ & _ & _ & Hw4 & has_credit & Hcr & He4 & He4').
  fold (after_customer tools s) in Ho2, Hc2, Hw2, Hc, He2.
  fold (after_items tools s) in Ho3, Hc3, Hw3, Hi, He3, He3'.
  fold (after_credit tools s) in Ho4, Hc4, Hw4, Hcr, He4, He4'.
  intros Hout.
  assert (Hrej : forall x,
            st_errors x <> [] ->
            st_status (error_handler_node x) = "approved"
            /\ st_approved (error_handler_node x) = true
            /\ st_errors (error_handler_node x) = []
            \/ st_status (error_handler_node x) = "rejected"
               /\ st_approved (error_handler_node x) = false
               /\ st_errors (error_handler_node x) <> []).
  { intros x Hx. right.
    destruct (error_handler_node_state x) as (Hs & Ha & He & _).
    rewrite Hs, Ha, He. now repeat split. }
  assert (Hdet : forall x, st_validation_details (error_handler_node x)
                           <> EmptyDetails).
  { intros x. destruct (error_handler_node_state x)
      as (_ & _ & _ & _ & _ & _ & _ & _ & _ & Hd).
    rewrite Hd. discriminate. }
  destruct Hout as
    [Herr|Herr Hf|Herr Hf1 Hf|Herr Hf1 Hf2 Hf|final' Herr Hf1 Hf2 Hf3 Hp].
  - destruct (error_handler_node_state (parse_order s))
      as (_ & _ & _ & Hw & _).
    unfold error_handler_node at 2 3. state_simpl.
    rewrite Hw, Hw1, Ho1, Hc1. repeat (split; [reflexivity|]).
    split; [apply Hdet|now apply Hrej].
  - destruct (error_handler_node_state (after_customer tools s))
      as (_ & _ & _ & Hw & _).
    unfold error_handler_node at 2 3. state_simpl.
    rewrite Hw, Hw2, Hw1, Ho2, Ho1, Hc2, Hc1.
    repeat (split; [reflexivity|]). split; [apply Hdet|apply Hrej].
    rewrite Hc in Hf. injection Hf as ->. rewrite He2.
    intros H. now apply app_eq_nil in H as [_ H].
  - destruct (error_handler_node_state (after_items tools s))
      as (_ & _ & _ & Hw & _).
    unfold error_handler_node at 2 3. state_simpl.
    rewrite Hw, Hw3, Hw2, Hw1, Ho3, Ho2, Ho1, Hc3, Hc2, Hc1.
    repeat (split; [reflexivity|]). split; [apply Hdet|apply Hrej].
    rewrite Hi in Hf. injection Hf as ->. now apply He3'.
  - destruct (error_handler_node_state (after_credit tools s))
      as (_ & _ & _ & Hw & _).
    unfold error_handler_node at 2 3. state_simpl.
    rewrite Hw, Hw4, Hw3, Hw2, Hw1, Ho4, Ho3, Ho2, Ho1, Hc4, Hc3, Hc2, Hc1.
    repeat (split; [reflexivity|]). split; [apply Hdet|apply Hrej].
    rewrite Hcr in Hf. injection Hf as ->. now apply He4'.
  - destruct (process_order_node_state _ _ Hp) as (Hs & Ha & He & _).
    destruct (process_order_node_result _ _ Hp)
      as (Hw & Ho & _ & n & Hd & _).
    assert (Hcid : st_customer_id final' = st_customer_id s).
    { revert Hp. unfold process_order_node. state_simpl.
      destruct (st_items_validation (after_credit tools s));
        [discriminate| |]; intros H; injection H as <-; state_simpl;
        now rewrite Hc4, Hc3, Hc2, Hc1. }
    rewrite Hw, Hw4, Hw3, Hw2, Hw1, Ho, Ho4, Ho3, Ho2, Ho1, Hcid, Hd.
    repeat (split; [reflexivity|]). split; [discriminate|]. left.
    rewrite Hs, Ha, He.
    rewrite Hc in Hf1. injection Hf1 as ->.
    rewrite Hi in Hf2. injection Hf2 as ->.
    rewrite Hcr in Hf3. injection Hf3 as ->.
    destruct (He4 eq_refl) as [He4a _].
    rewrite He4a, (He3 eq_refl), He2. now repeat split.
Qed.

(** Whatever the tools return or raise, [validate_order] ends approved with
    no error or rejected with at least one; the status is never "pending",
    "validating" or "error", the approved flag agrees with it, there are no
    warnings, and the details are never empty. *)
Theorem result_is_approved_or_rejected
    (tools : Tools) (order_id customer_id : string) (items : list OrderLine) :
  let result := validate_order_with tools order_id customer_id items in
  (fr_status result = "approved" /\ fr_approved result = true
   /\ fr_errors result = []
   \/ fr_status result = "rejected" /\ fr_approved result = false
      /\ fr_errors result <> [])
  /\ fr_warnings result = []
  /\ fr_validation_details result <> EmptyDetails.
Proof.
  cbv zeta.
  destruct (app_invoke_outcome tools (initial_state order_id customer_id items))
    as (final & Hrun & Hout).
  unfold validate_order_with, validate_order_on. rewrite Hrun.
  cbn [fr_status fr_approved fr_errors fr_warnings fr_validation_details].
  destruct (outcome_frame tools _ final Hout) as (Hw & _ & _ & Hd & Hst).
  now repeat split.
Qed.

(** *** Runs with tools that return what the functions of the repository
    return *)

Section RepositoryTools.

Variable tools : Tools.

Hypothesis customer_tool :
  forall customer_id,
    invoke_validate_customer_exists tools customer_id
      = Returned (validate_customer_exists customer_id).

Hypothesis items_tool :
  forall items,
    invoke_validate_order_items tools items
      = Returned (validate_order_items items).

Hypothesis credit_tool :
  forall customer_id order_amount,
    invoke_check_customer_credit tools customer_id order_amount
      = Returned (check_customer_credit customer_id order_amount).

Lemma after_customer_state (s : OrderState) :
  let s2 := after_customer tools s in
  let v := validate_customer_exists (st_customer_id s) in
  st_order_id s2 = st_order_id s
  /\ st_customer_id s2 = st_customer_id s
  /\ st_items s2 = st_items s
  /\ st_customer_validation s2 = Verdict v
  /\ st_items_validation s2 = st_items_validation s
  /\ st_credit_validation s2 = st_credit_validation s
  /\ st_total_amount s2 = 0.0
  /\ st_warnings s2 = []
  /\ st_errors s2
     = (st_errors (parse_order s)
          ++ (if cv_valid v then [] else [cv_message v]))%list.
Proof.
  cbv zeta.
  destruct (parse_order_state s)
    as (Ho1 & Hc1 & Hi1 & Hk1 & Hv1 & Hr1 & Ht1 & Hw1 & _ & _).
  unfold after_customer, validate_customer_node.
  rewrite customer_tool, Hc1.
  destruct (cv_valid (validate_customer_exists (st_customer_id s)));
    cbn [negb]; state_simpl; rewrite ?app_nil_r;
    now repeat (split; [assumption || reflexivity|]).
Qed.

Lemma after_items_state (s : OrderState) :
  let s3 := after_items tools s in
  let v := validate_order_items (st_items s) in
  st_order_id s3 = st_order_id s
  /\ st_customer_id s3 = st_customer_id s
  /\ st_customer_validation s3
     = Verdict (validate_customer_exists (st_customer_id s))
  /\ st_items_validation s3 = Verdict v
  /\ st_credit_validation s3 = st_credit_validation s
  /\ st_total_amount s3 = iv_total_amount v
  /\ st_warnings s3 = []
  /\ st_errors s3
     = (st_errors (after_customer tools s)
          ++ (if iv_valid v then []
              else iv_message v
                   :: map (fun bad =>
                             ("Item " ++ str_opt (ii_product_id bad) ++ ": "
                                ++ ii_reason bad)%string)
                        (iv_invalid_items v)))%list.
Proof.
  cbv zeta.
  destruct (after_customer_state s)
    as (Ho2 & Hc2 & Hi2 & Hk2 & _ & Hr2 & _ & Hw2 & _).
  unfold after_items, validate_items_node.
  rewrite items_tool, Hi2.
  destruct (iv_valid (validate_order_items (st_items s))); cbn [negb];
    cbv zeta; rewrite ?fold_append_error; state_simpl;
    rewrite ?app_nil_r, <- ?app_assoc;
    now repeat (split; [assumption || reflexivity|]).
Qed.

Lemma after_credit_state (s : OrderState) :
  let s4 := after_credit tools s in
  let v := validate_order_items (st_items s) in
  let credit := check_customer_credit (st_customer_id s) (iv_total_amount v) in
  st_order_id s4 = st_order_id s
  /\ st_customer_id s4 = st_customer_id s
  /\ st_customer_validation s4
     = Verdict (validate_customer_exists (st_customer_id s))
  /\ st_items_validation s4 = Verdict v
  /\ st_credit_validation s4 = Verdict credit
  /\ st_total_amount s4 = iv_total_amount v
  /\ st_warnings s4 = []
  /\ st_errors s4
     = (st_errors (after_items tools s)
          ++ (if cr_has_credit credit then [] else [cr_message credit]))%list.
Proof.
  cbv zeta.
  destruct (after_items_state s)
    as (Ho3 & Hc3 & Hk3 & Hi3 & _ & Ht3 & Hw3 & _).
  unfold after_credit, check_credit_node.
  rewrite Hc3, Ht3, credit_tool.
  destruct (cr_has_credit _); cbn [negb]; state_simpl; rewrite ?app_nil_r;
    now repeat (split; [assumption || reflexivity|]).
Qed.

Lemma valid_customer_nonempty (customer_id : string) :
  cv_valid (validate_customer_exists customer_id) = true -> customer_id <> "".
Proof. intros H ->. discriminate H. Qed.

Lemma valid_items_nonempty (items : list OrderLine) :
  iv_valid (validate_order_items items) = true -> items <> [].
Proof. intros H ->. discriminate H. Qed.

Lemma parse_ok_iff (order_id customer_id : string) (items : list OrderLine) :
  st_errors (parse_order (initial_state order_id customer_id items)) = []
  <-> order_id <> "" /\ customer_id <> "" /\ items <> [].
Proof.
  destruct (parse_order_state (initial_state order_id customer_id items))
    as (_ & _ & _ & _ & _ & _ & _ & _ & _ & H).
  exact H.
Qed.

(** A valid items verdict validated every line. *)
Lemma valid_items_all_pass (items : list OrderLine) :
  iv_valid (validate_order_items items) = true ->
  forallb line_passes items = true
  /\ length (iv_validated_items (validate_order_items items)) = length items.
Proof.
  intros Hvalid.
  destruct (validate_order_items_lines items) as [Hv Hi].
  pose proof (lines_partition_length items) as Hlen.
  rewrite <- Hv, <- Hi in Hlen.
  rewrite validate_order_items_valid in Hvalid.
  apply andb_prop in Hvalid as [Hinv _]. apply Nat.eqb_eq in Hinv.
  split; [|lia].
  apply forallb_forall. intros item Hin.
  destruct (line_passes item) eqn:Hp; [reflexivity|]. exfalso.
  assert (Hbad : exists bad,
            In bad (iv_invalid_items (validate_order_items items))).
  { rewrite Hi.
    destruct (first_failing_rule item) as [r|] eqn:Hr.
    - exists (rejection r item). apply in_flat_map. exists item.
      split; [exact Hin|]. unfold rejected_line. rewrite Hr. now left.
    - apply line_passes_iff in Hr. congruence. }
  destruct Hbad as [bad Hbad].
  destruct (iv_invalid_items (validate_order_items items));
    [destruct Hbad|discriminate].
Qed.

(** The path a run takes is decided by the order id and the three
    verdicts. *)
Lemma run_decided_by_verdicts
    (order_id customer_id : string) (items : list OrderLine) :
  let s := initial_state order_id customer_id items in
  let customer := validate_customer_exists customer_id in
  let v := validate_order_items items in
  let credit := check_customer_credit customer_id (iv_total_amount v) in
  app_invoke tools s
  = if list_falsy (st_errors (parse_order s))
    then
      if cv_valid customer then
        if iv_valid v then
          if cr_has_credit credit
          then process_order_node (after_credit tools s)
          else Returned (error_handler_node (after_credit tools s))
        else Returned (error_handler_node (after_items tools s))
      else Returned (error_handler_node (after_customer tools s))
    else Returned (error_handler_node (parse_order s)).
Proof.
  cbv zeta. set (s := initial_state order_id customer_id items).
  rewrite app_invoke_paths. cbv zeta.
  destruct (parse_order_state s) as (_ & _ & _ & _ & _ & _ & _ & _ & Hst & _).
  rewrite Hst. destruct (st_errors (parse_order s)); cbn [list_falsy];
    [|reflexivity].
  change (String.eqb "validating" "validating") with true. cbv iota.
  fold (after_customer tools s). fold (after_items tools s).
  fold (after_credit tools s).
  destruct (after_customer_state s) as (_ & _ & _ & Hk2 & _).
  destruct (after_items_state s) as (_ & _ & _ & Hk3 & _).
  destruct (after_credit_state s) as (_ & _ & _ & _ & Hk4 & _).
  rewrite Hk2, Hk3, Hk4. cbn [slot_flag]. subst s. state_simpl.
  destruct (cv_valid _); [|reflexivity].
  destruct (iv_valid _); [|reflexivity].
  destruct (cr_has_credit _); reflexivity.
Qed.

Lemma approved_iff_gen
    (order_id customer_id : string) (items : list OrderLine) :
  let result := validate_order_with tools order_id customer_id items in
  let total := iv_total_amount (validate_order_items items) in
  (fr_approved result = true
   <-> order_id <> ""
       /\ cv_valid (validate_customer_exists customer_id) = true
       /\ iv_valid (validate_order_items items) = true
       /\ cr_has_credit (check_customer_credit customer_id total) = true)
  /\ (fr_approved result = true ->
      fr_status result = "approved"
      /\ fr_errors result = []
      /\ fr_warnings result = []
      /\ fr_total_amount result = total
      /\ total == sum_Q (map line_total items)
      /\ fr_message result
         = "Orden " ++ order_id ++ " aprobada exitosamente. Total: $"
             ++ format_2f total
      /\ fr_validation_details result
         = ApprovedDetails (Verdict (validate_customer_exists customer_id))
             (Verdict (validate_order_items items))
             (Verdict (check_customer_credit customer_id total))
             (mkSummary order_id customer_id total (Some (length items)) true
                None)).
Proof.
  cbv zeta. set (s := initial_state order_id customer_id items).
  unfold validate_order_with, validate_order_on. fold s.
  pose proof (run_decided_by_verdicts order_id customer_id items) as Hrun.
  cbv zeta in Hrun. fold s in Hrun. rewrite Hrun. clear Hrun.
  pose proof (parse_ok_iff order_id customer_id items) as Hparse.
  fold s in Hparse.
  assert (Hrejected : forall x, st_approved (error_handler_node x) = true ->
                                False).
  { intros x H. destruct (error_handler_node_state x) as (_ & Ha & _).
    congruence. }
  destruct (st_errors (parse_order s)) as [|err errs] eqn:Herr;
    cbn [list_falsy].
  2:{ cbn [fr_approved]. split; [split|]; intros H;
        try (now destruct (Hrejected _ H)).
      destruct H as (Ho & Hc & Hi & _).
      assert (Hnil : err :: errs = []); [|discriminate Hnil].
      apply Hparse. split; [exact Ho|].
      split; [now apply valid_customer_nonempty
             |now apply valid_items_nonempty]. }
  destruct (proj1 Hparse eq_refl) as (Ho & _).
  destruct (cv_valid (validate_customer_exists customer_id)) eqn:Hc.
  2:{ cbn [fr_approved]. split; [split|]; intros H;
        try (now destruct (Hrejected _ H)).
      destruct H as (_ & H & _). discriminate H. }
  destruct (iv_valid (validate_order_items items)) eqn:Hi.
  2:{ cbn [fr_approved]. split; [split|]; intros H;
        try (now destruct (Hrejected _ H)).
      destruct H as (_ & _ & H & _). discriminate H. }
  destruct (cr_has_credit _) eqn:Hcr.
  2:{ cbn [fr_approved]. split; [split|]; intros H;
        try (now destruct (Hrejected _ H)).
      destruct H as (_ & _ & _ & H). discriminate H. }
  destruct (after_credit_state s)
    as (Ho4 & Hc4 & Hk4 & Hi4 & Hr4 & Ht4 & Hw4 & He4).
  destruct (after_items_state s) as (_ & _ & _ & _ & _ & _ & _ & He3).
  destruct (after_customer_state s) as (_ & _ & _ & _ & _ & _ & _ & _ & He2).
  subst s. state_simpl.
  set (s := initial_state order_id customer_id items) in *.
  rewrite Hcr in He4. rewrite Hi in He3. rewrite Hc in He2.
  rewrite app_nil_r in He4, He3, He2.
  destruct (process_order_node_returns (after_credit tools s)) as [final Hp].
  { rewrite Hi4. discriminate. }
  rewrite Hp.
  cbn [fr_status fr_approved fr_errors fr_warnings fr_total_amount fr_message
       fr_validation_details].
  destruct (process_order_node_state _ _ Hp) as (Hs & Ha & He & Ht & _).
  destruct (process_order_node_result _ _ Hp)
    as (Hw & _ & Hm & n & Hd & Hn).
  specialize (Hn _ Hi4).
  destruct (valid_items_all_pass items Hi) as [Hall Hlen].
  split; [split; intros _; [now repeat split|exact Ha]|].
  intros _.
  rewrite Hs, He, He4, He3, He2, Herr, Hw, Hw4, Ht, Ht4, Hm, Hd, Ho4, Hc4,
    Hk4, Hi4, Hr4, Ht4, Hn, Hlen.
  repeat (split; [reflexivity|]).
  split; [|split; reflexivity].
  now rewrite validate_order_items_total, filter_all_pass.
Qed.

Lemma rejected_for_items_gen
    (order_id customer_id : string) (items : list OrderLine) :
  let result := validate_order_with tools order_id customer_id items in
  let v := validate_order_items items in
  let errors :=
    iv_message v
    :: map (fun bad =>
              "Item " ++ str_opt (ii_product_id bad) ++ ": " ++ ii_reason bad)
         (iv_invalid_items v) in
  order_id <> "" ->
  items <> [] ->
  cv_valid (validate_customer_exists customer_id) = true ->
  iv_valid v = false ->
  fr_status result = "rejected"
  /\ fr_errors result = errors
  /\ (2 <= length (fr_errors result))%nat
  /\ iv_message v
     = "Validación fallida: " ++ str_len (iv_invalid_items v)
         ++ " items inválidos de " ++ str_len items ++ " totales"
  /\ fr_total_amount result = iv_total_amount v
  /\ fr_validation_details result
     = RejectedDetails (Verdict (validate_customer_exists customer_id))
         (Verdict v) Unset errors []
         (mkSummary order_id customer_id (iv_total_amount v) None false
            (Some (length errors))).
Proof.
  cbv zeta. set (s := initial_state order_id customer_id items).
  intros Ho Hne Hc Hi.
  unfold validate_order_with, validate_order_on. fold s.
  pose proof (run_decided_by_verdicts order_id customer_id items) as Hrun.
  cbv zeta in Hrun. fold s in Hrun. rewrite Hrun. clear Hrun.
  assert (Herr : st_errors (parse_order s) = []).
  { apply parse_ok_iff. split; [exact Ho|].
    split; [now apply valid_customer_nonempty|exact Hne]. }
  rewrite Herr, Hc, Hi. cbn [list_falsy].
  cbn [fr_status fr_errors fr_total_amount fr_validation_details].
  destruct (after_items_state s)
    as (Ho3 & Hc3 & Hk3 & Hi3 & Hr3 & Ht3 & Hw3 & He3).
  destruct (after_customer_state s) as (_ & _ & _ & _ & _ & _ & _ & _ & He2).
  subst s. state_simpl.
  set (s := initial_state order_id customer_id items) in *.
  rewrite Hi, He2, Hc, Herr in He3. cbn [app] in He3.
  destruct (error_handler_node_state (after_items tools s))
    as (Hs & _ & He & _ & Ht & _ & _ & _ & _ & Hd).
  rewrite Hs, He, Ht, Hd, He3, Ho3, Hc3, Hk3, Hi3, Hr3, Ht3, Hw3.
  assert (Hmsg : iv_message (validate_order_items items)
                 = "Validación fallida: "
                     ++ str_len (iv_invalid_items (validate_order_items items))
                     ++ " items inválidos de " ++ str_len items ++ " totales").
  { revert Hi. unfold validate_order_items.
    destruct items as [|item items']; [congruence|]. cbn [list_falsy].
    cbn [iv_valid iv_message iv_invalid_items]. now intros ->. }
  assert (Hsome : iv_invalid_items (validate_order_items items) <> []).
  { intros Hnil. rewrite validate_order_items_valid, Hnil in Hi.
    destruct (validate_order_items_lines items) as [Hv Hinv].
    pose proof (lines_partition_length items) as Hlen.
    rewrite <- Hv, <- Hinv, Hnil in Hlen. cbn [length] in Hi, Hlen.
    destruct items; [congruence|]. cbn [length] in Hlen.
    destruct (length (iv_validated_items _)); [lia|discriminate Hi]. }
  repeat (split; [reflexivity|]). split; [|split; [exact Hmsg|now split]].
  cbn [length]. rewrite length_map.
  destruct (iv_invalid_items (validate_order_items items));
    [congruence|cbn [length]; lia].
Qed.

Lemma rejected_for_credit_gen
    (order_id customer_id : string) (items : list OrderLine) :
  let result := validate_order_with tools order_id customer_id items in
  let v := validate_order_items items in
  let credit := check_customer_credit customer_id (iv_total_amount v) in
  order_id <> "" ->
  cv_valid (validate_customer_exists customer_id) = true ->
  iv_valid v = true ->
  cr_has_credit credit = false ->
  fr_status result = "rejected"
  /\ fr_errors result = [cr_message credit]
  /\ fr_message result
     = "Orden " ++ order_id ++ " rechazada. 1 error(es) encontrado(s)."
  /\ fr_total_amount result = iv_total_amount v
  /\ fr_total_amount result == sum_Q (map line_total items)
  /\ fr_validation_details result
     = RejectedDetails (Verdict (validate_customer_exists customer_id))
         (Verdict v) (Verdict credit) [cr_message credit] []
         (mkSummary order_id customer_id (iv_total_amount v) None false
            (Some 1%nat)).
Proof.
  cbv zeta. set (s := initial_state order_id customer_id items).
  intros Ho Hc Hi Hcr.
  unfold validate_order_with, validate_order_on. fold s.
  pose proof (run_decided_by_verdicts order_id customer_id items) as Hrun.
  cbv zeta in Hrun. fold s in Hrun. rewrite Hrun. clear Hrun.
  assert (Herr : st_errors (parse_order s) = []).
  { apply parse_ok_iff. split; [exact Ho|].
    split; [now apply valid_customer_nonempty
           |now apply valid_items_nonempty]. }
  rewrite Herr, Hc, Hi, Hcr. cbn [list_falsy].
  cbn [fr_status fr_errors fr_message fr_total_amount fr_validation_details].
  destruct (after_credit_state s)
    as (Ho4 & Hc4 & Hk4 & Hi4 & Hr4 & Ht4 & Hw4 & He4).
  destruct (after_items_state s) as (_ & _ & _ & _ & _ & _ & _ & He3).
  destruct (after_customer_state s) as (_ & _ & _ & _ & _ & _ & _ & _ & He2).
  subst s. state_simpl.
  set (s := initial_state order_id customer_id items) in *.
  rewrite Hcr, He3, Hi, He2, Hc, Herr in He4. cbn [app] in He4.
  destruct (error_handler_node_state (after_credit tools s))
    as (Hs & _ & He & _ & Ht & _ & _ & _ & Hm & Hd).
  rewrite Hs, He, Ht, Hm, Hd, He4, Ho4, Hc4, Hk4, Hi4, Hr4, Ht4, Hw4.
  destruct (valid_items_all_pass items Hi) as [Hall _].
  repeat (split; [reflexivity|]).
  split; [|reflexivity].
  now rewrite validate_order_items_total, filter_all_pass.
Qed.

Lemma parse_errors_without_order_id
    (order_id order_id' customer_id : string) (items : list OrderLine) :
  order_id <> "" -> order_id' <> "" ->
  st_errors (parse_order (initial_state order_id' customer_id items))
    = st_errors (parse_order (initial_state order_id customer_id items)).
Proof.
  intros Ho Ho'.
  destruct order_id as [|a o]; [congruence|].
  destruct order_id' as [|a' o']; [congruence|].
  destruct customer_id, items; reflexivity.
Qed.

Lemma order_id_only_in_message_gen
    (order_id order_id' customer_id : string) (items : list OrderLine) :
  let result := validate_order_with tools order_id customer_id items in
  let result' := validate_order_with tools order_id' customer_id items in
  order_id <> "" -> order_id' <> "" ->
  fr_status result' = fr_status result
  /\ fr_approved result' = fr_approved result
  /\ fr_total_amount result' = fr_total_amount result
  /\ fr_errors result' = fr_errors result
  /\ fr_warnings result' = fr_warnings result.
Proof.
  cbv zeta. intros Ho Ho'.
  unfold validate_order_with, validate_order_on.
  pose proof (run_decided_by_verdicts order_id customer_id items) as Hrun.
  pose proof (run_decided_by_verdicts order_id' customer_id items) as Hrun'.
  cbv zeta in Hrun, Hrun'. rewrite Hrun, Hrun'. clear Hrun Hrun'.
  pose proof (parse_errors_without_order_id order_id order_id' customer_id
                items Ho Ho') as Hparse.
  set (s := initial_state order_id customer_id items) in *.
  set (s' := initial_state order_id' customer_id items) in *.
  destruct (parse_order_state s) as (_ & _ & _ & _ & _ & _ & Ht1 & Hw1 & _).
  destruct (parse_order_state s') as (_ & _ & _ & _ & _ & _ & Ht1' & Hw1' & _).
  destruct (after_customer_state s)
    as (_ & _ & _ & _ & _ & _ & Ht2 & Hw2 & He2).
  destruct (after_customer_state s')
    as (_ & _ & _ & _ & _ & _ & Ht2' & Hw2' & He2').
  destruct (after_items_state s) as (_ & _ & _ & _ & _ & Ht3 & Hw3 & He3).
  destruct (after_items_state s') as (_ & _ & _ & _ & _ & Ht3' & Hw3' & He3').
  destruct (after_credit_state s)
    as (_ & _ & _ & Hi4 & _ & Ht4 & Hw4 & He4).
  destruct (after_credit_state s')
    as (_ & _ & _ & Hi4' & _ & Ht4' & Hw4' & He4').
  assert (Hsame : forall x x',
            st_total_amount x' = st_total_amount x ->
            st_errors x' = st_errors x ->
            st_warnings x' = st_warnings x ->
            let r := error_handler_node x in
            let r' := error_handler_node x' in
            st_status r' = st_status r /\ st_approved r' = st_approved r
            /\ st_total_amount r' = st_total_amount r
            /\ st_errors r' = st_errors r
            /\ st_warnings r' = st_warnings r).
  { intros x x' Ht He Hw. cbv zeta.
    destruct (error_handler_node_state x) as (Hs1 & Ha1 & He1 & Hw1x & Ht1x & _).
    destruct (error_handler_node_state x')
      as (Hs2 & Ha2 & He2x & Hw2x & Ht2x & _).
    rewrite Hs1, Hs2, Ha1, Ha2, He1, He2x, Hw1x, Hw2x, Ht1x, Ht2x.
    now repeat split. }
  subst s s'. state_simpl.
  set (s := initial_state order_id customer_id items) in *.
  set (s' := initial_state order_id' customer_id items) in *.
  rewrite Hparse.
  destruct (list_falsy (st_errors (parse_order s)));
    [|cbn [fr_status fr_approved fr_total_amount fr_errors fr_warnings];
      apply Hsame; congruence].
  destruct (cv_valid (validate_customer_exists customer_id));
    [|cbn [fr_status fr_approved fr_total_amount fr_errors fr_warnings];
      apply Hsame; congruence].
  destruct (iv_valid (validate_order_items items));
    [|cbn [fr_status fr_approved fr_total_amount fr_errors fr_warnings];
      apply Hsame; congruence].
  destruct (cr_has_credit _);
    [|cbn [fr_status fr_approved fr_total_amount fr_errors fr_warnings];
      apply Hsame; congruence].
  destruct (process_order_node_returns (after_credit tools s)) as [f Hp];
    [rewrite Hi4; discriminate|].
  destruct (process_order_node_returns (after_credit tools s')) as [f' Hp'];
    [rewrite Hi4'; discriminate|].
  rewrite Hp, Hp'.
  cbn [fr_status fr_approved fr_total_amount fr_errors fr_warnings].
  destruct (process_order_node_state _ _ Hp) as (Hs & Ha & He & Ht & _).
  destruct (process_order_node_state _ _ Hp') as (Hs' & Ha' & He' & Ht' & _).
  destruct (process_order_node_result _ _ Hp) as (Hw & _).
  destruct (process_order_node_result _ _ Hp') as (Hw' & _).
  rewrite Hs, Hs', Ha, Ha', He, He', Ht, Ht', Hw, Hw'.
  repeat split; congruence.
Qed.

End RepositoryTools.

(** An order is approved exactly when it has an order id, its customer is
    valid, its items are valid and the customer's credit covers the total
    of the items verdict. *)
Theorem approved_iff_all_checks_pass
    (order_id customer_id : string) (items : list OrderLine) :
  fr_approved (validate_order order_id customer_id items) = true
  <-> order_id <> ""
      /\ cv_valid (validate_customer_exists customer_id) = true
      /\ iv_valid (validate_order_items items) = true
      /\ cr_has_credit
           (check_customer_credit customer_id
              (iv_total_amount (validate_order_items items))) = true.
Proof.
  unfold validate_order.
  apply (approved_iff_gen validation_tools); reflexivity.
Qed.

(** An approved result has status "approved", no error and no warning, the
    total of the items verdict (the sum over all the lines of catalog price
    times quantity), and details that hold the three verdicts and a summary
    that counts every line of the order. *)
Theorem approved_result_contents
    (order_id customer_id : string) (items : list OrderLine) :
  fr_approved (validate_order order_id customer_id items) = true ->
  fr_status (validate_order order_id customer_id items) = "approved"
  /\ fr_errors (validate_order order_id customer_id items) = []
  /\ fr_warnings (validate_order order_id customer_id items) = []
  /\ fr_total_amount (validate_order order_id customer_id items)
     = iv_total_amount (validate_order_items items)
  /\ iv_total_amount (validate_order_items items)
     == sum_Q (map line_total items)
  /\ fr_message (validate_order order_id customer_id items)
     = "Orden " ++ order_id ++ " aprobada exitosamente. Total: $"
         ++ format_2f (iv_total_amount (validate_order_items items))
  /\ fr_validation_details (validate_order order_id customer_id items)
     = ApprovedDetails (Verdict (validate_customer_exists customer_id))
         (Verdict (validate_order_items items))
         (Verdict
            (check_customer_credit customer_id
               (iv_total_amount (validate_order_items items))))
         (mkSummary order_id customer_id
            (iv_total_amount (validate_order_items items))
            (Some (length items)) true None).
Proof.
  unfold validate_order.
  apply (approved_iff_gen validation_tools); reflexivity.
Qed.

Lemma approved_result_contents_witness :
  fr_status
    (validate_order "ORD-001" "CUST001"
       [mkOrderLine (Some "PROD001") (Some 2%Z) (Some 1200.0);
        mkOrderLine (Some "PROD002") (Some 5%Z) (Some 25.0)]) = "approved".
Proof.
  apply (approved_result_contents "ORD-001" "CUST001"
           [mkOrderLine (Some "PROD001") (Some 2%Z) (Some 1200.0);
            mkOrderLine (Some "PROD002") (Some 5%Z) (Some 25.0)]).
  vm_compute. reflexivity.
Defined.

(** An order with a valid customer and an invalid items verdict is rejected
    before any credit check: the errors are the message of the verdict
    followed by one entry per invalid line, in order, so there are at least
    two; the credit key stays unset; and the total is that of the verdict. *)
Theorem rejected_for_items_lists_invalid_lines
    (order_id customer_id : string) (items : list OrderLine) :
  order_id <> "" ->
  items <> [] ->
  cv_valid (validate_customer_exists customer_id) = true ->
  iv_valid (validate_order_items items) = false ->
  fr_status (validate_order order_id customer_id items) = "rejected"
  /\ fr_errors (validate_order order_id customer_id items)
     = iv_message (validate_order_items items)
       :: map (fun bad =>
                 "Item " ++ str_opt (ii_product_id bad) ++ ": "
                   ++ ii_reason bad)
            (iv_invalid_items (validate_order_items items))
  /\ (2 <= length (fr_errors (validate_order order_id customer_id items)))%nat
  /\ iv_message (validate_order_items items)
     = "Validación fallida: "
         ++ str_len (iv_invalid_items (validate_order_items items))
         ++ " items inválidos de " ++ str_len items ++ " totales"
  /\ fr_total_amount (validate_order order_id customer_id items)
     = iv_total_amount (validate_order_items items)
  /\ fr_validation_details (validate_order order_id customer_id items)
     = RejectedDetails (Verdict (validate_customer_exists customer_id))
         (Verdict (validate_order_items items)) Unset
         (iv_message (validate_order_items items)
          :: map (fun bad =>
                    "Item " ++ str_opt (ii_product_id bad) ++ ": "
                      ++ ii_reason bad)
               (iv_invalid_items (validate_order_items items)))
         []
         (mkSummary order_id customer_id
            (iv_total_amount (validate_order_items items)) None false
            (Some
               (length
                  (iv_message (validate_order_items items)
                   :: map (fun bad =>
                             "Item " ++ str_opt (ii_product_id bad) ++ ": "
                               ++ ii_reason bad)
                        (iv_invalid_items (validate_order_items items)))))).
Proof.
  unfold validate_order.
  apply (rejected_for_items_gen validation_tools); reflexivity.
Qed.

Lemma rejected_for_items_lists_invalid_lines_witness :
  fr_errors
    (validate_order "ORD-005" "CUST005"
       [mkOrderLine (Some "PROD999") (Some 1%Z) (Some 100.0);
        mkOrderLine (Some "PROD001") (Some 2%Z) (Some 1200.0)])
  = ["Validación fallida: 1 items inválidos de 2 totales";
     "Item PROD999: Producto PROD999 no existe en el catálogo"].
Proof.
  destruct (rejected_for_items_lists_invalid_lines "ORD-005" "CUST005"
              [mkOrderLine (Some "PROD999") (Some 1%Z) (Some 100.0);
               mkOrderLine (Some "PROD001") (Some 2%Z) (Some 1200.0)])
    as (_ & He & _).
  - discriminate.
  - discriminate.
  - reflexivity.
  - reflexivity.
  - rewrite He. reflexivity.
Defined.

(** An order that passes the customer and items checks but not the credit
    check is rejected with the credit message as its only error; the result
    keeps the total of the items and all three verdicts. *)
Theorem rejected_for_credit_keeps_total
    (order_id customer_id : string) (items : list OrderLine) :
  order_id <> "" ->
  cv_valid (validate_customer_exists customer_id) = true ->
  iv_valid (validate_order_items items) = true ->
  cr_has_credit
    (check_customer_credit customer_id
       (iv_total_amount (validate_order_items items))) = false ->
  fr_status (validate_order order_id customer_id items) = "rejected"
  /\ fr_errors (validate_order order_id customer_id items)
     = [cr_message
          (check_customer_credit customer_id
             (iv_total_amount (validate_order_items items)))]
  /\ fr_message (validate_order order_id customer_id items)
     = "Orden " ++ order_id ++ " rechazada. 1 error(es) encontrado(s)."
  /\ fr_total_amount (validate_order order_id customer_id items)
     = iv_total_amount (validate_order_items items)
  /\ fr_total_amount (validate_order order_id customer_id items)
     == sum_Q (map line_total items)
  /\ fr_validation_details (validate_order order_id customer_id items)
     = RejectedDetails (Verdict (validate_customer_exists customer_id))
         (Verdict (validate_order_items items))
         (Verdict
            (check_customer_credit customer_id
               (iv_total_amount (validate_order_items items))))
         [cr_message
            (check_customer_credit customer_id
               (iv_total_amount (validate_order_items items)))]
         []
         (mkSummary order_id customer_id
            (iv_total_amount (validate_order_items items)) None false
            (Some 1%nat)).
Proof.
  unfold validate_order.
  apply (rejected_for_credit_gen validation_tools); reflexivity.
Qed.

Lemma rejected_for_credit_keeps_total_witness :
  fr_errors
    (validate_order "ORD-002" "CUST002"
       [mkOrderLine (Some "PROD001") (Some 5%Z) (Some 1200.0)])
  = ["Crédito insuficiente. Disponible: $500.00, Requerido: $6000.00, Falta: $5500.00"].
Proof.
  destruct (rejected_for_credit_keeps_total "ORD-002" "CUST002"
              [mkOrderLine (Some "PROD001") (Some 5%Z) (Some 1200.0)])
    as (_ & He & _).
  - discriminate.
  - reflexivity.
  - reflexivity.
  - reflexivity.
  - rewrite He. reflexivity.
Defined.

(** The order id only shows in the message and in the summary: two orders
    that differ in their order id alone, neither of them empty, get the
    same status, approval, total, errors and warnings. *)
Theorem order_id_only_in_message
    (order_id order_id' customer_id : string) (items : list OrderLine) :
  order_id <> "" -> order_id' <> "" ->
  fr_status (validate_order order_id' customer_id items)
    = fr_status (validate_order order_id customer_id items)
  /\ fr_approved (validate_order order_id' customer_id items)
     = fr_approved (validate_order order_id customer_id items)
  /\ fr_total_amount (validate_order order_id' customer_id items)
     = fr_total_amount (validate_order order_id customer_id items)
  /\ fr_errors (validate_order order_id' customer_id items)
     = fr_errors (validate_order order_id customer_id items)
  /\ fr_warnings (validate_order order_id' customer_id items)
     = fr_warnings (validate_order order_id customer_id items).
Proof.
  unfold validate_order.
  apply (order_id_only_in_message_gen validation_tools); reflexivity.
Qed.

Lemma order_id_only_in_message_witness :
  fr_errors
    (validate_order "B-7" "CUST003"
       [mkOrderLine (Some "PROD004") (Some 2%Z) (Some 350.0)])
  = fr_errors
      (validate_order "ORD-003" "CUST003"
         [mkOrderLine (Some "PROD004") (Some 2%Z) (Some 350.0)]).
Proof.
  apply (order_id_only_in_message "ORD-003" "B-7" "CUST003"
           [mkOrderLine (Some "PROD004") (Some 2%Z) (Some 350.0)]);
    discriminate.
Defined.


(** The step limit matters below five: an approved order needs all five. *)
Example four_steps_are_not_enough :
  run validation_tools 4 N_parse_order
    (initial_state "ORD-001" "CUST001"
       [mkOrderLine (Some "PROD001") (Some 2%Z) (Some 1200.0)])
  = Raised recursion_limit_reached.
Proof. vm_compute. reflexivity. Qed.

Lemma process_order_node_customer_id (s s' : OrderState) :
  process_order_node s = Returned s' -> st_customer_id s' = st_customer_id s.
Proof.
  unfold process_order_node. state_simpl.
  destruct (st_items_validation s); [discriminate| |];
    intros H; injection H as <-; reflexivity.
Qed.

Lemma error_handler_details (x : OrderState) :
  let f := error_handler_node x in
  st_validation_details f
    = RejectedDetails (st_customer_validation f) (st_items_validation f)
        (st_credit_validation f) (st_errors f) (st_warnings f)
        (mkSummary (st_order_id f) (st_customer_id f) (st_total_amount f)
           None false (Some (length (st_errors f)))).
Proof. reflexivity. Qed.

(** The details of a result repeat the result: those of a rejected order
    hold its errors, its warnings and a summary with the ids of the order,
    its total and the number of its errors; those of an approved order hold
    a summary with the ids and the total. This holds whatever the tools
    return or raise. *)
Theorem details_agree_with_result
    (tools : Tools) (order_id customer_id : string) (items : list OrderLine) :
  let result := validate_order_with tools order_id customer_id items in
  (fr_approved result = false ->
   exists customer items_verdict credit,
     fr_validation_details result
       = RejectedDetails customer items_verdict credit (fr_errors result)
           (fr_warnings result)
           (mkSummary order_id customer_id (fr_total_amount result) None false
              (Some (length (fr_errors result)))))
  /\ (fr_approved result = true ->
      exists customer items_verdict credit count,
        fr_validation_details result
          = ApprovedDetails customer items_verdict credit
              (mkSummary order_id customer_id (fr_total_amount result)
                 (Some count) true None)).
Proof.
  cbv zeta.
  destruct (app_invoke_outcome tools (initial_state order_id customer_id items))
    as (final & Hrun & Hout).
  unfold validate_order_with, validate_order_on. rewrite Hrun.
  cbn [fr_approved fr_errors fr_warnings fr_total_amount
       fr_validation_details].
  destruct (outcome_frame tools _ final Hout) as (_ & Ho & Hc & _ & _).
  cbn [initial_state st_order_id st_customer_id] in Ho, Hc.
  assert (Hrej : forall x,
            final = error_handler_node x ->
            (st_approved final = false ->
             exists customer items_verdict credit,
               st_validation_details final
                 = RejectedDetails customer items_verdict credit
                     (st_errors final) (st_warnings final)
                     (mkSummary order_id customer_id (st_total_amount final)
                        None false (Some (length (st_errors final)))))
            /\ (st_approved final = true ->
                exists customer items_verdict credit count,
                  st_validation_details final
                    = ApprovedDetails customer items_verdict credit
                        (mkSummary order_id customer_id
                           (st_total_amount final) (Some count) true None))).
  { intros x Hx. split.
    - intros _. pose proof (error_handler_details x) as Hd.
      cbv zeta in Hd. rewrite <- Hx in Hd. rewrite Ho, Hc in Hd.
      eexists _, _, _. exact Hd.
    - intros Ha. exfalso. subst final.
      destruct (error_handler_node_state x) as (_ & Ha' & _). congruence. }
  destruct Hout as
    [Herr|Herr Hf|Herr Hf1 Hf|Herr Hf1 Hf2 Hf|final' Herr Hf1 Hf2 Hf3 Hp];
    try (now eapply Hrej).
  destruct (process_order_node_state _ _ Hp) as (_ & Ha & _ & Ht & _).
  destruct (process_order_node_result _ _ Hp) as (_ & Ho' & _ & n & Hd & _).
  split; [congruence|]. intros _.
  pose proof (process_order_node_customer_id _ _ Hp) as Hcid.
  rewrite Hd, <- Ho', Ho, <- Hcid, Hc, <- Ht. eexists _, _, _, _. reflexivity.
Qed.

Lemma details_agree_with_result_witness :
  exists customer items_verdict credit,
    fr_validation_details (validate_order "" "" [])
    = RejectedDetails customer items_verdict credit
        ["ID de orden no proporcionado"; "ID de cliente no proporcionado";
         "No se proporcionaron items en la orden"]
        [] (mkSummary "" "" 0.0 None false (Some 3%nat)).
Proof.
  destruct (details_agree_with_result validation_tools "" "" [])
    as (Hrej & _).
  destruct (Hrej eq_refl) as (customer & items_verdict & credit & Hd).
  exists customer, items_verdict, credit. exact Hd.
Defined.

(** A tool that raises inside its node does not stop the run: the order is
    rejected, the only error is the prefix of that node followed by the
    text of the exception, and the total is what the nodes before had set
    (0 before the items check, the items total after it). *)
Theorem tool_failure_rejects_order
    (tools : Tools) (order_id customer_id : string) (items : list OrderLine) :
  order_id <> "" -> customer_id <> "" -> items <> [] ->
  let result := validate_order_with tools order_id customer_id items in
  (forall e,
     invoke_validate_customer_exists tools customer_id = Raised e ->
     fr_status result = "rejected"
     /\ fr_errors result = ["Error al validar cliente: " ++ e]
     /\ fr_total_amount result = 0.0)
  /\ (forall customer e,
        invoke_validate_customer_exists tools customer_id = Returned customer ->
        cv_valid customer = true ->
        invoke_validate_order_items tools items = Raised e ->
        fr_status result = "rejected"
        /\ fr_errors result = ["Error al validar items: " ++ e]
        /\ fr_total_amount result = 0.0)
  /\ (forall customer verdict e,
        invoke_validate_customer_exists tools customer_id = Returned customer ->
        cv_valid customer = true ->
        invoke_validate_order_items tools items = Returned verdict ->
        iv_valid verdict = true ->
        invoke_check_customer_credit tools customer_id
          (iv_total_amount verdict) = Raised e ->
        fr_status result = "rejected"
        /\ fr_errors result = ["Error al verificar crédito: " ++ e]
        /\ fr_total_amount result = iv_total_amount verdict).
Proof.
  intros Ho Hc Hi. cbv zeta.
  set (s := initial_state order_id customer_id items).
  assert (Herr : st_errors (parse_order s) = [])
    by (apply parse_ok_iff; now repeat split).
  destruct (parse_order_state s) as (_ & Hc1 & Hi1 & _ & _ & _ & Ht1 & _).
  cbn [s initial_state st_customer_id st_items] in Hc1, Hi1.
  unfold validate_order_with, validate_order_on. fold s.
  rewrite app_invoke_paths. cbv zeta.
  rewrite (parse_order_validating _ Herr).
  assert (Hrejected : forall x,
            let r := error_handler_node x in
            st_status r = "rejected" /\ st_errors r = st_errors x
            /\ st_total_amount r = st_total_amount x).
  { intros x. cbv zeta.
    destruct (error_handler_node_state x) as (H1 & _ & H2 & _ & H3 & _).
    now repeat split. }
  split; [|split].
  - intros e Hraise.
    assert (Hs2 : validate_customer_node tools (parse_order s)
                  = set_customer_validation
                      (append_error (parse_order s)
                         ("Error al validar cliente: " ++ e))
                      (Failure ("Error al validar cliente: " ++ e))).
    { unfold validate_customer_node. now rewrite Hc1, Hraise. }
    rewrite Hs2. state_simpl. cbn [slot_flag fr_status fr_errors
                                     fr_total_amount].
    destruct (Hrejected
                (set_customer_validation
                   (append_error (parse_order s)
                      ("Error al validar cliente: " ++ e))
                   (Failure ("Error al validar cliente: " ++ e))))
      as (H1 & H2 & H3).
    rewrite H1, H2, H3. state_simpl. rewrite Herr, Ht1. now repeat split.
  - intros customer e Hcust Hvalid Hraise.
    assert (Hs2 : validate_customer_node tools (parse_order s)
                  = set_customer_validation (parse_order s) (Verdict customer)).
    { unfold validate_customer_node. now rewrite Hc1, Hcust, Hvalid. }
    rewrite Hs2. state_simpl. cbn [slot_flag]. rewrite Hvalid.
    assert (Hs3 : validate_items_node tools
                    (set_customer_validation (parse_order s) (Verdict customer))
                  = set_items_validation
                      (append_error
                         (set_customer_validation (parse_order s)
                            (Verdict customer))
                         ("Error al validar items: " ++ e))
                      (Failure ("Error al validar items: " ++ e))).
    { unfold validate_items_node. state_simpl. now rewrite Hi1, Hraise. }
    rewrite Hs3. state_simpl. cbn [slot_flag fr_status fr_errors
                                     fr_total_amount].
    match goal with
    | |- context [error_handler_node ?x] =>
        destruct (Hrejected x) as (H1 & H2 & H3)
    end.
    rewrite H1, H2, H3. state_simpl. rewrite Herr, Ht1. now repeat split.
  - intros customer verdict e Hcust Hvalid Hitems Hivalid Hraise.
    assert (Hs2 : validate_customer_node tools (parse_order s)
                  = set_customer_validation (parse_order s) (Verdict customer)).
    { unfold validate_customer_node. now rewrite Hc1, Hcust, Hvalid. }
    rewrite Hs2. state_simpl. cbn [slot_flag]. rewrite Hvalid.
    assert (Hs3 : validate_items_node tools
                    (set_customer_validation (parse_order s) (Verdict customer))
                  = set_total_amount
                      (set_items_validation
                         (set_customer_validation (parse_order s)
                            (Verdict customer))
                         (Verdict verdict))
                      (iv_total_amount verdict)).
    { unfold validate_items_node. state_simpl.
      now rewrite Hi1, Hitems, Hivalid. }
    rewrite Hs3. state_simpl. cbn [slot_flag]. rewrite Hivalid.
    match goal with
    | |- context [check_credit_node tools ?x] =>
        assert (Hs4 : check_credit_node tools x
                      = set_credit_validation
                          (append_error x ("Error al verificar crédito: " ++ e))
                          (Failure ("Error al verificar crédito: " ++ e)))
    end.
    { unfold check_credit_node. state_simpl. now rewrite Hc1, Hraise. }
    rewrite Hs4. state_simpl. cbn [slot_flag fr_status fr_errors
                                     fr_total_amount].
    match goal with
    | |- context [error_handler_node ?x] =>
        destruct (Hrejected x) as (H1 & H2 & H3)
    end.
    rewrite H1, H2, H3. state_simpl. rewrite Herr. now repeat split.
Qed.

Lemma tool_failure_rejects_order_witness :
  fr_errors
    (validate_order_with
       (mkTools (invoke_validate_customer_exists validation_tools)
          (fun _ => Raised "stock service down")
          (invoke_check_customer_credit validation_tools))
       "ORD-9" "CUST001" [mkOrderLine (Some "PROD001") (Some 1%Z) None])
  = ["Error al validar items: stock service down"].
Proof.
  destruct (tool_failure_rejects_order
              (mkTools (invoke_validate_customer_exists validation_tools)
                 (fun _ => Raised "stock service down")
                 (invoke_check_customer_credit validation_tools))
              "ORD-9" "CUST001" [mkOrderLine (Some "PROD001") (Some 1%Z) None])
    as (_ & Hitems & _).
  - discriminate.
  - discriminate.
  - discriminate.
  - destruct (Hitems (validate_customer_exists "CUST001")
                "stock service down" eq_refl eq_refl eq_refl)
      as (_ & He & _).
    exact He.
Defined.

(** ** Properties of the console output *)











(** The run over the five orders of [EXAMPLE_ORDERS]: nothing raises, one
    order is approved and four are rejected, as their descriptions say. *)
Example example_orders_run :
  raised run_example_validations = None
  /\ last (printed run_example_validations) (Markup "")
     = Markup (newline ++ "[green]Aprobadas: 1[/green] | [red]Rechazadas: 4[/red]"
                 ++ newline)
  /\ map (fun entry =>
            fr_approved
              (validate_order (ex_order_id (snd entry))
                 (ex_customer_id (snd entry)) (ex_items (snd entry))))
       EXAMPLE_ORDERS
     = [true; false; false; false; false].
Proof. vm_compute. repeat split. Qed.

(** ** The further properties at concrete inputs *)

Lemma customer_verdict_reflects_catalog_witness :
  cv_valid (validate_customer_exists "CUST004") = true.
Proof.
  destruct (customer_verdict_reflects_catalog "CUST004")
    as (_ & _ & _ & _ & Hin).
  apply Hin. right. right. left. reflexivity.
Defined.

Lemma total_is_sum_of_validated_items_witness :
  iv_total_amount
    (validate_order_items [mkOrderLine (Some "PROD999") (Some 1%Z) None]) == 0.
Proof.
  destruct (total_is_sum_of_validated_items
              [mkOrderLine (Some "PROD999") (Some 1%Z) None])
    as (_ & _ & Hzero).
  apply Hzero. reflexivity.
Defined.

Lemma parse_order_resets_and_reports_witness :
  In "ID de orden no proporcionado"
    ["ID de orden no proporcionado"; "ID de cliente no proporcionado";
     "No se proporcionaron items en la orden"].
Proof.
  destruct (parse_order_resets_and_reports (initial_state "" "CUST001" []))
    as (Hin & _).
  apply Hin. left. reflexivity.
Defined.

Lemma approved_iff_all_checks_pass_witness :
  fr_approved
    (validate_order "ORD-001" "CUST001"
       [mkOrderLine (Some "PROD001") (Some 2%Z) (Some 1200.0);
        mkOrderLine (Some "PROD002") (Some 5%Z) (Some 25.0)]) = true.
Proof.
  apply (proj2 (approved_iff_all_checks_pass "ORD-001" "CUST001"
                  [mkOrderLine (Some "PROD001") (Some 2%Z) (Some 1200.0);
                   mkOrderLine (Some "PROD002") (Some 5%Z) (Some 25.0)])).
  split; [discriminate|]. repeat split; reflexivity.
Defined.
